(** * exa: a raw-mode terminal cursor demo (main.go)

    A shallow embedding of the key decoder ([readKey]), the key handler
    ([processKeyPress], [moveCursor]) and the renderer ([refresh],
    [drawRows]) of main.go, followed by the properties of the
    specification that concern them.

    Conventions of the embedding:
    - Go's [int] is a 64-bit two's-complement integer: it is a [Z] and every
      arithmetic operation goes through [wrap_int];
    - a [[]byte] is a [list byte], indexed with stdpp's lookup; an index out
      of range is a run-time panic, as is a slice bound out of range;
    - a Go [string] is a sequence of bytes: a Rocq [string];
    - a call either returns, panics, or is still running when the fuel of
      its loops is exhausted ([res]);
    - standard output is the string a call has printed, standard input the
      chunk of bytes one [Read] finds pending. *)

From Stdlib Require Import ZArith Lia String Ascii.
From Stdlib Require Import Strings.Byte.
From stdpp Require Import base list strings pretty.

Local Open Scope Z_scope.

(* ===================================================================== *)
(** ** Outcomes of a call *)
(* ===================================================================== *)

(** The two run-time panics main.go can raise on its own data. *)
Inductive panic : Type :=
  | IndexOutOfRange
  | SliceBoundsOutOfRange.

Inductive res (A : Type) : Type :=
  | Done (a : A)
  | Panic (p : panic)
  | OutOfFuel.

Arguments Done {A} a.
Arguments Panic {A} p.
Arguments OutOfFuel {A}.

#[global] Instance res_ret : MRet res := fun A a => Done a.

#[global] Instance res_bind : MBind res := fun A B f m =>
  match m with
  | Done a => f a
  | Panic p => Panic p
  | OutOfFuel => OutOfFuel
  end.

(* ===================================================================== *)
(** ** Go's int *)
(* ===================================================================== *)

Definition int_min : Z := -9223372036854775808.
Definition int_max : Z := 9223372036854775807.

(** Two's-complement wrap-around of a mathematical integer to 64 bits. *)
Definition wrap_int (z : Z) : Z :=
  (z + 9223372036854775808) mod 18446744073709551616 - 9223372036854775808.

Definition int_add (a b : Z) : Z := wrap_int (a + b).
Definition int_sub (a b : Z) : Z := wrap_int (a - b).
(** [a / b] for a non-zero constant [b]: Go truncates towards zero. *)
Definition int_quot (a b : Z) : Z := wrap_int (Z.quot a b).

Definition is_int (z : Z) : Prop := int_min <= z <= int_max.

(* ===================================================================== *)
(** ** Bytes, slices and strings *)
(* ===================================================================== *)

(** The numeric value of a byte, as in the conversion [EdKey(b[0])] and in
    the comparisons of a byte with a character constant. *)
Definition u8 (b : byte) : Z := Z.of_N (Byte.to_N b).

(** [b[i]] *)
Definition index (b : list byte) (i : nat) : res byte :=
  match b !! i with
  | Some x => Done x
  | None => Panic IndexOutOfRange
  end.

(** [b[i] = x] *)
Definition store (b : list byte) (i : nat) (x : byte) : res (list byte) :=
  if decide (i < length b)%nat then Done (<[i:=x]> b)
  else Panic IndexOutOfRange.

(** [len(s)] *)
Definition len (s : string) : Z := Z.of_nat (String.length s).

(** [s[:n]] *)
Definition slice_to (s : string) (n : Z) : res string :=
  if (0 <=? n) && (n <=? len s) then Done (substring 0 (Z.to_nat n) s)
  else Panic SliceBoundsOutOfRange.

(** The characters Rocq's string syntax cannot write. *)
Definition ESC : string := String "027"%char EmptyString.
Definition CR : string := String "013"%char EmptyString.
Definition LF : string := String "010"%char EmptyString.

(** How [fmt.Print] writes an [int]: decimal digits, with a minus sign
    when negative. *)
Definition itoa (n : Z) : string := pretty n.

(* ===================================================================== *)
(** ** Loops *)
(* ===================================================================== *)

(** [for i := i0; cond; i++ { body }] over a state [St]. The condition is
    tested before the fuel, so [n] units of fuel run a loop of [n]
    iterations to its end. *)
Fixpoint for_loop {St : Type} (fuel : nat)
    (cond : Z -> St -> bool) (body : Z -> St -> res St)
    (i : Z) (s : St) : res St :=
  if cond i s then
    match fuel with
    | O => OutOfFuel
    | S fuel' => s' ← body i s; for_loop fuel' cond body (int_add i 1) s'
    end
  else Done s.

(** The state after [n] iterations from index [i], when iteration [k]
    turns state [s] into [f k s]. *)
Fixpoint iter_from {St : Type} (f : Z -> St -> St) (n : nat) (i : Z) (s : St)
    : St :=
  match n with
  | O => s
  | S n' => iter_from f n' (i + 1) (f i s)
  end.

(* ===================================================================== *)
(** ** The editor state and the key codes *)
(* ===================================================================== *)

Record Editor : Type := mkEditor {
  width : Z;
  height : Z;
  cx : Z;
  cy : Z
}.

Definition set_cx (ed : Editor) (x : Z) : Editor :=
  {| width := width ed; height := height ed; cx := x; cy := cy ed |}.
Definition set_cy (ed : Editor) (y : Z) : Editor :=
  {| width := width ed; height := height ed; cx := cx ed; cy := y |}.

Definition EdKey : Type := Z.

(** [iota + 1000] and the five constants after it. *)
Definition ARW_LEFT : EdKey := 1000.
Definition ARW_UP : EdKey := 1001.
Definition ARW_RIGHT : EdKey := 1002.
Definition ARW_DOWN : EdKey := 1003.
Definition PG_UP : EdKey := 1004.
Definition PG_DOWN : EdKey := 1005.

(* ===================================================================== *)
(** ** moveCursor *)
(* ===================================================================== *)

Definition moveCursor (ed : Editor) (ch : EdKey) : Editor :=
  if ch =? ARW_LEFT then
    if cx ed =? 0 then ed else set_cx ed (int_sub (cx ed) 1)
  else if ch =? ARW_RIGHT then
    if cx ed =? int_sub (width ed) 1 then ed else set_cx ed (int_add (cx ed) 1)
  else if ch =? ARW_UP then
    if cy ed =? 0 then ed else set_cy ed (int_sub (cy ed) 1)
  else if ch =? ARW_DOWN then
    if cy ed =? int_sub (height ed) 1 then ed else set_cy ed (int_add (cy ed) 1)
  else ed.

(* ===================================================================== *)
(** ** readKey *)
(* ===================================================================== *)

(** [os.Stdin.Read(b)]: the pending bytes [inp] overwrite the front of the
    buffer, as many as fit; the rest of the buffer keeps what it held. The
    count and the error that [Read] returns are dropped by the caller. *)
Definition stdin_Read (inp b : list byte) : list byte :=
  take (length b) inp ++ drop (length inp) b.

(** The page keys, [<esc>[5~] and [<esc>[6~]: the part of [readKey] under
    [if b[2] >= '0' && b[2] <= '9']. [None] when control falls out of it. *)
Definition readKey_page (b : list byte) (b2 : byte) : res (option EdKey) :=
  if (u8 "0" <=? u8 b2) && (u8 b2 <=? u8 "9") then
    b3 ← index b 3;
    if u8 b3 =? u8 "~" then
      if u8 b2 =? u8 "5" then Done (Some PG_UP)
      else if u8 b2 =? u8 "6" then Done (Some PG_DOWN)
      else Done None
    else Done None
  else Done None.

(** [readKey(b)], with the bytes its [Read] finds. Returns the key and the
    buffer as the read left it. *)
Definition readKey (inp b : list byte) : res (EdKey * list byte) :=
  let b := stdin_Read inp b in
  b0 ← index b 0;
  if u8 b0 =? 0x1b then
    b1 ← index b 1;
    if negb (u8 b1 =? u8 "[") then Done (0x1b, b)
    else
      b2 ← index b 2;
      pg ← readKey_page b b2;
      match pg with
      | Some k => Done (k, b)
      | None =>
          if u8 b2 =? u8 "A" then Done (ARW_UP, b)
          else if u8 b2 =? u8 "B" then Done (ARW_DOWN, b)
          else if u8 b2 =? u8 "C" then Done (ARW_RIGHT, b)
          else if u8 b2 =? u8 "D" then Done (ARW_LEFT, b)
          else Done (u8 b0, b)
      end
  else Done (u8 b0, b).

(* ===================================================================== *)
(** ** processKeyPress *)
(* ===================================================================== *)

(** The clear-screen sequence printed on exit. *)
Definition CLEAR_SCREEN : string := ESC +:+ "[H" +:+ ESC +:+ "[2J".

(** [for i := 0; i <= ed.height; i++ { ed.moveCursor(ch) }] *)
Definition page_loop (fuel : nat) (ed : Editor) (ch : EdKey) : res Editor :=
  for_loop fuel (fun i ed => i <=? height ed)
                (fun _ ed => Done (moveCursor ed ch)) 0 ed.

(** [ed.processKeyPress(b)] with the bytes its read finds. Returns the
    editor, the buffer, what was printed, and the boolean result. *)
Definition processKeyPress (fuel : nat) (ed : Editor) (inp b : list byte)
    : res (Editor * list byte * string * bool) :=
  '(ch, b) ← readKey inp b;
  b ← store b 1 "000"%byte;
  if ch =? Z.land 0x1f (u8 "q") then Done (ed, b, CLEAR_SCREEN, false)
  else if (ch =? ARW_UP) || (ch =? ARW_DOWN) || (ch =? ARW_RIGHT) || (ch =? ARW_LEFT)
  then Done (moveCursor ed ch, b, EmptyString, true)
  else if ch =? PG_UP then
    ed' ← page_loop fuel ed ARW_UP; Done (ed', b, EmptyString, true)
  else if ch =? PG_DOWN then
    ed' ← page_loop fuel ed ARW_DOWN; Done (ed', b, EmptyString, true)
  else if ch <? 32 then Done (ed, b, EmptyString, true)
  else if ch =? 127 then Done (ed, b, EmptyString, true)
  else Done (ed, b, EmptyString, true).

(* ===================================================================== *)
(** ** drawRows and refresh *)
(* ===================================================================== *)

Definition message : string := "Welcome to this stupid text editor :)".

Definition CLEAR_LINE : string := ESC +:+ "[K".
Definition CRLF : string := CR +:+ LF.

(** The body of the banner branch, [if y == ed.height/3 { ... }]. *)
Definition drawBanner (fuel : nat) (ed : Editor) (screen : string) : res string :=
  screen ← (if len message >? width ed then slice_to screen (width ed)
            else Done screen);
  let padding := int_quot (int_sub (width ed) (len message)) 2 in
  let screen := screen +:+ "~" in
  screen ← for_loop fuel (fun i _ => i <=? padding)
                         (fun _ screen => Done (screen +:+ " ")) 1 screen;
  Done (screen +:+ message).

(** One iteration of the loop over the rows. *)
Definition drawRow (fuel : nat) (ed : Editor) (y : Z) (screen : string) : res string :=
  screen ← (if y =? int_quot (height ed) 3 then drawBanner fuel ed screen
            else Done (screen +:+ "~"));
  let screen := screen +:+ CLEAR_LINE in
  Done (if y <? int_sub (height ed) 1 then screen +:+ CRLF else screen).

(** [ed.drawRows()]: what it prints. *)
Definition drawRows (fuel : nat) (ed : Editor) : res string :=
  for_loop fuel (fun y _ => y <? height ed) (drawRow fuel ed) 0 EmptyString.

Definition HIDE_CURSOR : string := ESC +:+ "[?25l".
Definition SHOW_CURSOR : string := ESC +:+ "[?25h".
Definition HOME : string := ESC +:+ "[H".

(** [ed.refresh()]: what it prints, in the order of its five calls to
    [fmt.Print]. Every operand next to an [int] is a string, so [Print]
    puts no space between them. When [drawRows] panics the outcome is the
    panic: the two sequences printed before it are not recorded. *)
Definition refresh (fuel : nat) (ed : Editor) : res string :=
  rows ← drawRows fuel ed;
  Done (HIDE_CURSOR +:+ HOME +:+ rows
        +:+ ESC +:+ "[" +:+ itoa (int_add (cy ed) 1) +:+ ";"
        +:+ itoa (int_add (cx ed) 1) +:+ "H"
        +:+ SHOW_CURSOR).

(* ===================================================================== *)
(** ** main *)
(* ===================================================================== *)

(** The loop of [main],
    [for run := true; run; { ed.refresh(); run = ed.processKeyPress(b) }],
    followed through the reads listed in [inputs]: each element is what
    one call of [os.Stdin.Read] finds pending. When the list is used up
    the program has printed its frame and waits in [Read]: the state it
    waits in is returned, with [true] for [run]. Returns the editor, the
    buffer, all that was printed, and the last value of [run]. *)
Fixpoint main_loop (fuel : nat) (ed : Editor) (b : list byte)
    (inputs : list (list byte)) : res (Editor * list byte * string * bool) :=
  match inputs with
  | [] => frame ← refresh fuel ed; Done (ed, b, frame, true)
  | inp :: rest =>
      frame ← refresh fuel ed;
      '(ed', b', out, run) ← processKeyPress fuel ed inp b;
      if run : bool then
        '(ed'', b'', out', run') ← main_loop fuel ed' b' rest;
        Done (ed'', b'', frame +:+ out +:+ out', run')
      else Done (ed', b', frame +:+ out, false)
  end.

(** [main] once [term.MakeRaw] and [term.GetSize] have returned without an
    error, the latter with [w] and [h]: the buffer is [make([]byte, 4)], the
    editor [&Editor{width: w, height: h}], its cursor at the zero value. *)
Definition main (fuel : nat) (w h : Z) (inputs : list (list byte))
    : res (Editor * list byte * string * bool) :=
  main_loop fuel (mkEditor w h 0 0) [x00; x00; x00; x00] inputs.

(* ===================================================================== *)
(** ** The frame the specification describes *)
(* ===================================================================== *)

(** [n] spaces. *)
Fixpoint spaces (n : nat) : string :=
  match n with
  | O => EmptyString
  | S n' => " " +:+ spaces n'
  end.

(** The concatenation of a list of strings. *)
Definition cat (l : list string) : string := foldr String.append EmptyString l.

(** Row [y] as the specification words it: the row at index height / 3
    carries the marker, the padding of (width - len(message)) / 2 spaces
    and the message, every other row the marker alone; then the
    clear-to-end-of-line sequence, and a line break unless the row is the
    last one. *)
Definition row_spec (ed : Editor) (y : Z) : string :=
  (if y =? height ed / 3
   then "~" +:+ spaces (Z.to_nat ((width ed - len message) / 2)) +:+ message
   else "~")
  +:+ (ESC +:+ "[K")
  +:+ (if y <? height ed - 1 then CR +:+ LF else EmptyString).

(** One frame as the specification words it: hide the cursor, home, the
    rows 0 .. height - 1, the cursor moved to the 1-indexed
    (cursorY + 1, cursorX + 1), show the cursor. *)
Definition frame_spec (ed : Editor) : string :=
  (ESC +:+ "[?25l") +:+ (ESC +:+ "[H")
  +:+ cat (row_spec ed <$> seqZ 0 (height ed))
  +:+ (ESC +:+ "[" +:+ itoa (cy ed + 1) +:+ ";" +:+ itoa (cx ed + 1) +:+ "H")
  +:+ (ESC +:+ "[?25h").

(* ===================================================================== *)
(** ** The state invariant of the specification *)
(* ===================================================================== *)

(** The viewport is at least one cell each way, and its dimensions are
    values of Go's [int]. *)
Definition viewport_ok (ed : Editor) : Prop :=
  1 <= width ed <= int_max /\ 1 <= height ed <= int_max.

(** [cursorX] in [[0, width-1]] and [cursorY] in [[0, height-1]]. *)
Definition in_bounds (ed : Editor) : Prop :=
  0 <= cx ed < width ed /\ 0 <= cy ed < height ed.

(* ===================================================================== *)
(** ** Basic facts: integers, bytes, strings *)
(* ===================================================================== *)

Example itoa_24 : itoa 24 = "24"%string.
Proof. reflexivity. Qed.

Example itoa_minus_5 : itoa (-5) = "-5"%string.
Proof. reflexivity. Qed.

Example quit_byte : Z.land 0x1f (u8 "q") = 17.
Proof. reflexivity. Qed.

Lemma wrap_int_id (z : Z) : is_int z -> wrap_int z = z.
Proof.
  unfold is_int, int_min, int_max, wrap_int. intros Hz.
  rewrite Z.mod_small; lia.
Qed.

Lemma int_add_id (a b : Z) : is_int (a + b) -> int_add a b = a + b.
Proof. apply wrap_int_id. Qed.

Lemma int_sub_id (a b : Z) : is_int (a - b) -> int_sub a b = a - b.
Proof. apply wrap_int_id. Qed.

Lemma int_quot_id (a b : Z) : is_int (Z.quot a b) -> int_quot a b = Z.quot a b.
Proof. apply wrap_int_id. Qed.

Lemma u8_inj (a b : byte) : u8 a = u8 b -> a = b.
Proof.
  unfold u8. intros H. apply N2Z.inj in H.
  pose proof (Byte.of_to_N a) as Ha. pose proof (Byte.of_to_N b) as Hb.
  rewrite H in Ha. congruence.
Qed.

Lemma u8_eqb_eq (a b : byte) : (u8 a =? u8 b) = true <-> a = b.
Proof.
  rewrite Z.eqb_eq. split; [apply u8_inj | congruence].
Qed.

Lemma u8_eqb_neq (a b : byte) : (u8 a =? u8 b) = false <-> a <> b.
Proof.
  rewrite Z.eqb_neq. split; intros H E; apply H; [congruence | by apply u8_inj].
Qed.

Lemma length_stdin_Read (inp b : list byte) :
  length (stdin_Read inp b) = length b.
Proof.
  unfold stdin_Read. rewrite length_app, length_take, length_drop. lia.
Qed.

Lemma store_lt (b : list byte) (i : nat) (x : byte) :
  (i < length b)%nat -> store b i x = Done (<[i:=x]> b).
Proof.
  intros Hi. unfold store. destruct (decide (i < length b)%nat); [done | lia].
Qed.

(* ===================================================================== *)
(** ** moveCursor *)
(* ===================================================================== *)

Lemma moveCursor_dims (ed : Editor) (ch : EdKey) :
  width (moveCursor ed ch) = width ed /\ height (moveCursor ed ch) = height ed.
Proof.
  unfold moveCursor.
  repeat match goal with |- context [if ?c then _ else _] => destruct c end;
    done.
Qed.

Lemma moveCursor_left (ed : Editor) :
  moveCursor ed ARW_LEFT
  = if cx ed =? 0 then ed else set_cx ed (int_sub (cx ed) 1).
Proof. reflexivity. Qed.

Lemma moveCursor_right (ed : Editor) :
  moveCursor ed ARW_RIGHT
  = if cx ed =? int_sub (width ed) 1 then ed
    else set_cx ed (int_add (cx ed) 1).
Proof. reflexivity. Qed.

Lemma moveCursor_up (ed : Editor) :
  moveCursor ed ARW_UP
  = if cy ed =? 0 then ed else set_cy ed (int_sub (cy ed) 1).
Proof. reflexivity. Qed.

Lemma moveCursor_down (ed : Editor) :
  moveCursor ed ARW_DOWN
  = if cy ed =? int_sub (height ed) 1 then ed
    else set_cy ed (int_add (cy ed) 1).
Proof. reflexivity. Qed.

(** Rewrites the wrapped operations of a goal into plain ones, leaving the
    range conditions to [lia]. *)
Ltac unwrap :=
  repeat first
    [ rewrite int_sub_id by (unfold is_int, int_min, int_max; simpl; lia)
    | rewrite int_add_id by (unfold is_int, int_min, int_max; simpl; lia) ].

Lemma moveCursor_in_bounds (ed : Editor) (ch : EdKey) :
  viewport_ok ed -> in_bounds ed -> in_bounds (moveCursor ed ch).
Proof.
  unfold viewport_ok, in_bounds, int_max. intros [Hw Hh] [Hx Hy].
  unfold moveCursor.
  repeat match goal with
         | |- context [if ?c then _ else _] => destruct c eqn:?
         end; simpl; try lia; unwrap;
    repeat match goal with
           | H : (_ =? _) = false |- _ =>
               apply Z.eqb_neq in H; revert H; unwrap; intros H
           end; lia.
Qed.

(* ===================================================================== *)
(** ** readKey on a buffer that starts an escape sequence *)
(* ===================================================================== *)

(** The decoder after [<esc>[]: the page keys first, then the arrows, then
    the first byte as it is. *)
Lemma readKey_csi (inp b : list byte) (c d : byte) :
  stdin_Read inp b = [x1b; "["; c; d]%byte ->
  readKey inp b
  = (pg ← readKey_page [x1b; "["; c; d]%byte c;
     match pg with
     | Some k => Done (k, [x1b; "["; c; d]%byte)
     | None =>
         if u8 c =? u8 "A" then Done (ARW_UP, [x1b; "["; c; d]%byte)
         else if u8 c =? u8 "B" then Done (ARW_DOWN, [x1b; "["; c; d]%byte)
         else if u8 c =? u8 "C" then Done (ARW_RIGHT, [x1b; "["; c; d]%byte)
         else if u8 c =? u8 "D" then Done (ARW_LEFT, [x1b; "["; c; d]%byte)
         else Done (0x1b, [x1b; "["; c; d]%byte)
     end).
Proof.
  intros H. unfold readKey. rewrite H. reflexivity.
Qed.

Lemma readKey_page_eq (e l c d : byte) :
  readKey_page [e; l; c; d] c
  = Done (if (u8 "0" <=? u8 c) && (u8 c <=? u8 "9") && (u8 d =? u8 "~")
          then if u8 c =? u8 "5" then Some PG_UP
               else if u8 c =? u8 "6" then Some PG_DOWN else None
          else None).
Proof.
  unfold readKey_page.
  change (index [e; l; c; d] 3) with (Done d).
  destruct ((u8 "0" <=? u8 c) && (u8 c <=? u8 "9")); [|reflexivity].
  change (Done d ≫= ?f) with (f d). cbv beta.
  destruct (u8 d =? u8 "~"); [|reflexivity].
  destruct (u8 c =? u8 "5"); [reflexivity|].
  destruct (u8 c =? u8 "6"); reflexivity.
Qed.

(** Case analysis on every comparison of two bytes in the goal, each
    turned into an equation or a disequation of the bytes. *)
Ltac byte_cases :=
  repeat match goal with
         | |- context [u8 ?a =? u8 ?b] =>
             let E := fresh "E" in
             destruct (u8 a =? u8 b) eqn:E;
             [apply u8_eqb_eq in E | apply u8_eqb_neq in E]
         end.

(** C4: on a buffer [<esc> [ c d], the third byte 'A', 'B', 'C', 'D'
    decodes to ARW_UP, ARW_DOWN, ARW_RIGHT, ARW_LEFT, and the third and
    fourth bytes '5','~' to PG_UP, '6','~' to PG_DOWN. *)
Theorem readKey_arrows_and_pages (inp b : list byte) (c d : byte) :
  stdin_Read inp b = [x1b; "["; c; d]%byte ->
  (c = "A"%byte -> readKey inp b = Done (ARW_UP, [x1b; "["; c; d]%byte)) /\
  (c = "B"%byte -> readKey inp b = Done (ARW_DOWN, [x1b; "["; c; d]%byte)) /\
  (c = "C"%byte -> readKey inp b = Done (ARW_RIGHT, [x1b; "["; c; d]%byte)) /\
  (c = "D"%byte -> readKey inp b = Done (ARW_LEFT, [x1b; "["; c; d]%byte)) /\
  (c = "5"%byte -> d = "~"%byte ->
     readKey inp b = Done (PG_UP, [x1b; "["; c; d]%byte)) /\
  (c = "6"%byte -> d = "~"%byte ->
     readKey inp b = Done (PG_DOWN, [x1b; "["; c; d]%byte)).
Proof.
  intros H. rewrite (readKey_csi _ _ _ _ H), readKey_page_eq.
  repeat split; intros; subst; reflexivity.
Qed.

Lemma readKey_arrows_and_pages_witness :
  stdin_Read [x1b; "["; "A"]%byte [x00; x00; x00; x00]
  = [x1b; "["; "A"; x00]%byte /\
  readKey [x1b; "["; "A"]%byte [x00; x00; x00; x00]
  = Done (ARW_UP, [x1b; "["; "A"; x00]%byte).
Proof.
  split; [reflexivity|].
  apply (proj1 (readKey_arrows_and_pages
                  [x1b; "["; "A"]%byte [x00; x00; x00; x00] "A"%byte x00
                  eq_refl));
    reflexivity.
Defined.

(** C7: on a buffer whose first byte is <esc> and whose second byte is not
    '[', the decoder returns 0x1b, whatever the third and fourth bytes. *)
Theorem readKey_bare_escape (inp b : list byte) (b1 b2 b3 : byte) :
  stdin_Read inp b = [x1b; b1; b2; b3] ->
  b1 <> "["%byte ->
  readKey inp b = Done (0x1b, [x1b; b1; b2; b3]).
Proof.
  intros H Hb1. unfold readKey. rewrite H.
  change (index [x1b; b1; b2; b3] 0) with (Done x1b).
  change (index [x1b; b1; b2; b3] 1) with (Done b1).
  change (Done x1b ≫= ?f) with (f x1b). cbv beta.
  change (u8 x1b =? 27) with true. cbv iota.
  change (Done b1 ≫= ?f) with (f b1). cbv beta.
  apply u8_eqb_neq in Hb1. rewrite Hb1. reflexivity.
Qed.

Lemma readKey_bare_escape_witness :
  readKey [x1b] [x00; x00; x00; x00] = Done (0x1b, [x1b; x00; x00; x00]).
Proof.
  apply (readKey_bare_escape [x1b] [x00; x00; x00; x00] x00 x00 x00);
    [reflexivity | discriminate].
Defined.

(* ===================================================================== *)
(** ** processKeyPress: quit and unrecognised sequences *)
(* ===================================================================== *)

(** C6: when the first byte of the buffer is 0x11 (that is 0x1f & 'q'),
    whatever follows it, processKeyPress prints the clear-screen sequence
    <esc>[H<esc>[2J and returns false, with the editor unchanged. *)
Theorem processKeyPress_quit (fuel : nat) (ed : Editor)
    (inp b : list byte) (b1 : byte) (rest : list byte) :
  stdin_Read inp b = x11 :: b1 :: rest ->
  u8 x11 = Z.land 0x1f (u8 "q") /\
  processKeyPress fuel ed inp b
  = Done (ed, x11 :: x00 :: rest, ESC +:+ "[H" +:+ ESC +:+ "[2J", false).
Proof.
  intros H. split; [reflexivity|].
  unfold processKeyPress, readKey. rewrite H.
  change (index (x11 :: b1 :: rest) 0) with (Done x11).
  change (Done x11 ≫= ?f) with (f x11). cbv beta.
  change (u8 x11 =? 27) with false. cbv iota.
  change (Done (?k, ?l) ≫= ?f) with (f (k, l)). cbv beta iota.
  rewrite store_lt by (simpl; lia).
  reflexivity.
Qed.

Lemma processKeyPress_quit_witness :
  processKeyPress 0 (mkEditor 80 24 5 7) [x11] [x00; "["; "A"; "~"]%byte
  = Done (mkEditor 80 24 5 7, [x11; x00; "A"; "~"]%byte,
          ESC +:+ "[H" +:+ ESC +:+ "[2J", false).
Proof.
  apply (proj2 (processKeyPress_quit 0 (mkEditor 80 24 5 7)
                  [x11] [x00; "["; "A"; "~"]%byte "["%byte ["A"; "~"]%byte
                  eq_refl)).
Defined.

(** C8: on a buffer [<esc> [ c d] that is no recognised sequence ([c] is
    none of 'A'..'D', and [c d] is neither "5~" nor "6~"), the decoder
    returns without a panic, with the key 0x1b; processKeyPress takes it as
    a control character (below 32): it prints nothing, changes nothing in
    the editor and returns true. *)
Theorem processKeyPress_unrecognised_ignored (fuel : nat) (ed : Editor)
    (inp b : list byte) (c d : byte) :
  stdin_Read inp b = [x1b; "["; c; d]%byte ->
  c <> "A"%byte -> c <> "B"%byte -> c <> "C"%byte -> c <> "D"%byte ->
  ~ (d = "~"%byte /\ (c = "5"%byte \/ c = "6"%byte)) ->
  readKey inp b = Done (0x1b, [x1b; "["; c; d]%byte) /\
  0x1b < 32 /\
  processKeyPress fuel ed inp b
  = Done (ed, [x1b; x00; c; d]%byte, EmptyString, true).
Proof.
  intros H HA HB HC HD Hpg.
  assert (Hrk : readKey inp b = Done (0x1b, [x1b; "["; c; d]%byte)).
  { rewrite (readKey_csi _ _ _ _ H), readKey_page_eq.
    destruct ((u8 "0" <=? u8 c) && (u8 c <=? u8 "9")); cbv [andb];
      byte_cases; try reflexivity; try contradiction;
      exfalso; apply Hpg; auto. }
  split; [exact Hrk|]. split; [lia|].
  unfold processKeyPress. rewrite Hrk. reflexivity.
Qed.

Lemma processKeyPress_unrecognised_ignored_witness :
  processKeyPress 0 (mkEditor 80 24 5 7)
    [x1b; "["; "3"; "~"]%byte [x00; x00; x00; x00]
  = Done (mkEditor 80 24 5 7, [x1b; x00; "3"; "~"]%byte, EmptyString, true).
Proof.
  apply (processKeyPress_unrecognised_ignored 0 (mkEditor 80 24 5 7)
           [x1b; "["; "3"; "~"]%byte [x00; x00; x00; x00] "3"%byte "~"%byte);
    first [reflexivity | discriminate
          | intros [_ [E | E]]; discriminate E].
Defined.

(* ===================================================================== *)
(** ** moveCursor: left and right undo each other *)
(* ===================================================================== *)

Lemma set_cy_cy (ed : Editor) : set_cy ed (cy ed) = ed.
Proof. by destruct ed. Qed.

(** C9: in a state whose cursor column is in bounds, ARW_LEFT then
    ARW_RIGHT restores the state when 0 < cx, ARW_RIGHT then ARW_LEFT
    restores it when cx < width - 1; ARW_LEFT at cx = 0 and ARW_RIGHT at
    cx = width - 1 change nothing. *)
Theorem moveCursor_left_right (ed : Editor) :
  width ed <= int_max ->
  0 <= cx ed < width ed ->
  (0 < cx ed -> moveCursor (moveCursor ed ARW_LEFT) ARW_RIGHT = ed) /\
  (cx ed < width ed - 1 ->
     moveCursor (moveCursor ed ARW_RIGHT) ARW_LEFT = ed) /\
  (cx ed = 0 -> moveCursor ed ARW_LEFT = ed) /\
  (cx ed = width ed - 1 -> moveCursor ed ARW_RIGHT = ed).
Proof.
  unfold int_max. intros Hw Hx.
  assert (Hw1 : int_sub (width ed) 1 = width ed - 1) by (unwrap; lia).
  repeat split; intros H.
  - rewrite moveCursor_left.
    destruct (Z.eqb_spec (cx ed) 0) as [E|_]; [lia|].
    rewrite moveCursor_right. simpl. rewrite Hw1.
    assert (Hd : int_sub (cx ed) 1 = cx ed - 1) by (unwrap; lia).
    rewrite Hd.
    destruct (Z.eqb_spec (cx ed - 1) (width ed - 1)) as [E|_]; [lia|].
    assert (Hu : int_add (cx ed - 1) 1 = cx ed) by (unwrap; lia).
    rewrite Hu. destruct ed; reflexivity.
  - rewrite moveCursor_right, Hw1.
    destruct (Z.eqb_spec (cx ed) (width ed - 1)) as [E|_]; [lia|].
    rewrite moveCursor_left. simpl.
    assert (Hu : int_add (cx ed) 1 = cx ed + 1) by (unwrap; lia).
    rewrite Hu.
    destruct (Z.eqb_spec (cx ed + 1) 0) as [E|_]; [lia|].
    assert (Hd : int_sub (cx ed + 1) 1 = cx ed) by (unwrap; lia).
    rewrite Hd. destruct ed; reflexivity.
  - rewrite moveCursor_left, H. reflexivity.
  - rewrite moveCursor_right, Hw1, H, Z.eqb_refl. reflexivity.
Qed.

Lemma moveCursor_left_right_witness :
  moveCursor (moveCursor (mkEditor 80 24 5 7) ARW_LEFT) ARW_RIGHT
  = mkEditor 80 24 5 7.
Proof.
  apply (proj1 (moveCursor_left_right (mkEditor 80 24 5 7)
                  ltac:(unfold int_max; simpl; lia) ltac:(simpl; lia)));
    simpl; lia.
Defined.

(* ===================================================================== *)
(** ** Counting loops *)
(* ===================================================================== *)

Section ForLoop.
Context {St : Type}.
Variables (cond : Z -> St -> bool) (body : Z -> St -> res St).

Lemma for_loop_unfold (fuel : nat) (i : Z) (s : St) :
  for_loop fuel cond body i s
  = if cond i s then
      match fuel with
      | O => OutOfFuel
      | S fuel' => s' ← body i s; for_loop fuel' cond body (int_add i 1) s'
      end
    else Done s.
Proof. destruct fuel; reflexivity. Qed.

Lemma for_loop_exit (fuel : nat) (i : Z) (s : St) :
  cond i s = false -> for_loop fuel cond body i s = Done s.
Proof. intros H. rewrite for_loop_unfold, H. reflexivity. Qed.

Lemma for_loop_panic (fuel : nat) (i : Z) (s : St) (p : panic) :
  cond i s = true -> body i s = Panic p ->
  for_loop (S fuel) cond body i s = Panic p.
Proof. intros Hc Hb. rewrite for_loop_unfold, Hc, Hb. reflexivity. Qed.

Variables (Inv : St -> Prop) (f : Z -> St -> St).

(** Whatever the fuel, a loop that returns keeps an invariant of its
    body. *)
Lemma for_loop_inv (fuel : nat) :
  (forall i s s', Inv s -> cond i s = true -> body i s = Done s' -> Inv s') ->
  forall (i : Z) (s s' : St),
    Inv s -> for_loop fuel cond body i s = Done s' -> Inv s'.
Proof.
  intros Hbody. induction fuel as [|fuel' IH]; intros i s s' HI H;
    rewrite for_loop_unfold in H; destruct (cond i s) eqn:Hc;
    try discriminate H; try (by injection H as <-).
  destruct (body i s) as [s1| |] eqn:Hb; try discriminate H.
  apply (IH (int_add i 1) s1); [by apply (Hbody i s) | exact H].
Qed.

(** [n] iterations that pass the test and return, from an index that
    does not overflow on the way, use up [n] units of fuel. *)
Lemma for_loop_prefix (n fuel : nat) :
  forall (i : Z) (s : St),
    int_min <= i -> i + Z.of_nat n <= int_max ->
    Inv s ->
    (forall k s', i <= k < i + Z.of_nat n -> Inv s' ->
       cond k s' = true /\ body k s' = Done (f k s') /\ Inv (f k s')) ->
    for_loop (n + fuel) cond body i s
    = for_loop fuel cond body (i + Z.of_nat n) (iter_from f n i s)
    /\ Inv (iter_from f n i s).
Proof.
  induction n as [|n IH]; intros i s Hlo Hhi HI Hstep.
  - simpl. rewrite Z.add_0_r. done.
  - destruct (Hstep i s ltac:(lia) HI) as (Hc & Hb & HI').
    change (S n + fuel)%nat with (S (n + fuel)).
    rewrite for_loop_unfold, Hc, Hb.
    change (Done (f i s) ≫= ?g) with (g (f i s)). cbv beta.
    assert (Hi1 : int_add i 1 = i + 1).
    { apply int_add_id. unfold is_int. lia. }
    rewrite Hi1.
    destruct (IH (i + 1) (f i s)) as [E HI'']; [lia | lia | done | |].
    { intros k s' Hk. apply Hstep. lia. }
    simpl iter_from. rewrite E. split; [f_equal; lia | done].
Qed.

(** A loop whose test fails after exactly [n] such iterations returns
    the state they built, given [n] units of fuel or more. *)
Lemma for_loop_run (n fuel : nat) (i : Z) (s : St) :
  int_min <= i -> i + Z.of_nat n <= int_max ->
  Inv s ->
  (forall k s', i <= k < i + Z.of_nat n -> Inv s' ->
     cond k s' = true /\ body k s' = Done (f k s') /\ Inv (f k s')) ->
  (forall s', Inv s' -> cond (i + Z.of_nat n) s' = false) ->
  (n <= fuel)%nat ->
  for_loop fuel cond body i s = Done (iter_from f n i s).
Proof.
  intros Hlo Hhi HI Hstep Hend Hfuel.
  replace fuel with (n + (fuel - n))%nat by lia.
  destruct (for_loop_prefix n (fuel - n) i s Hlo Hhi HI Hstep) as [E HI'].
  rewrite E. apply for_loop_exit. by apply Hend.
Qed.
End ForLoop.

Lemma iter_from_const {St : Type} (g : St -> St) (n : nat) :
  forall (i : Z) (s : St), iter_from (fun _ => g) n i s = Nat.iter n g s.
Proof.
  induction n as [|n IH]; intros i s; [reflexivity|].
  rewrite Nat.iter_succ_r. simpl. apply IH.
Qed.

(* ===================================================================== *)
(** ** The page loops *)
(* ===================================================================== *)

Lemma page_loop_in_bounds (fuel : nat) (ed ed' : Editor) (ch : EdKey) :
  viewport_ok ed -> in_bounds ed ->
  page_loop fuel ed ch = Done ed' ->
  in_bounds ed' /\ width ed' = width ed /\ height ed' = height ed.
Proof.
  intros Hv Hb. unfold page_loop.
  apply (for_loop_inv _ _
           (fun e => in_bounds e /\ width e = width ed /\ height e = height ed)).
  - intros i s s' (Hs & Hws & Hhs) _ E. injection E as <-.
    destruct (moveCursor_dims s ch) as [Ew Eh].
    rewrite Ew, Eh. split; [|done].
    apply moveCursor_in_bounds; [|done].
    unfold viewport_ok. by rewrite Hws, Hhs.
  - done.
Qed.

(** The loop counts [i] from 0 up to [ed.height] inclusive: it comes to
    an end when [height + 1] is an [int] too (at [height = int_max] the
    test [i <= ed.height] has no way to fail). *)
Lemma page_loop_iter (fuel : nat) (ed : Editor) (ch : EdKey) :
  height ed < int_max ->
  (Z.to_nat (height ed + 1) <= fuel)%nat ->
  page_loop fuel ed ch
  = Done (Nat.iter (Z.to_nat (height ed + 1)) (fun e => moveCursor e ch) ed).
Proof.
  intros Hh Hfuel. unfold page_loop.
  rewrite <- (iter_from_const _ _ 0).
  destruct (Z.le_gt_cases 0 (height ed + 1)) as [Hpos|Hneg].
  - apply (for_loop_run _ _ (fun s => height s = height ed));
      try done; try (unfold int_min; lia).
    + intros k s' Hk Hs'. rewrite Hs'. repeat split.
      * apply Z.leb_le. lia.
      * rewrite <- Hs'. apply moveCursor_dims.
    + intros s' Hs'. rewrite Hs'. apply Z.leb_gt. lia.
  - replace (Z.to_nat (height ed + 1)) with 0%nat by lia.
    simpl iter_from. apply for_loop_exit. apply Z.leb_gt. lia.
Qed.

Lemma iter_up (n : nat) (ed : Editor) :
  0 <= cy ed <= int_max ->
  Nat.iter n (fun e => moveCursor e ARW_UP) ed
  = set_cy ed (Z.max 0 (cy ed - Z.of_nat n)).
Proof.
  unfold int_max. intros Hy. induction n as [|n IH].
  - simpl. rewrite Z.sub_0_r, Z.max_r by lia. by rewrite set_cy_cy.
  - rewrite Nat.iter_succ, IH, moveCursor_up. simpl.
    destruct (Z.eqb_spec (Z.max 0 (cy ed - Z.of_nat n)) 0) as [E|E].
    + unfold set_cy; simpl. f_equal; lia.
    + unfold set_cy; simpl. f_equal. unwrap. lia.
Qed.

Lemma iter_down (n : nat) (ed : Editor) :
  height ed <= int_max ->
  0 <= cy ed < height ed ->
  Nat.iter n (fun e => moveCursor e ARW_DOWN) ed
  = set_cy ed (Z.min (height ed - 1) (cy ed + Z.of_nat n)).
Proof.
  unfold int_max. intros Hh Hy. induction n as [|n IH].
  - simpl. rewrite Z.add_0_r, Z.min_r by lia. by rewrite set_cy_cy.
  - rewrite Nat.iter_succ, IH, moveCursor_down. simpl.
    assert (Hh1 : int_sub (height ed) 1 = height ed - 1) by (unwrap; lia).
    rewrite Hh1.
    destruct (Z.eqb_spec (Z.min (height ed - 1) (cy ed + Z.of_nat n))
                (height ed - 1)) as [E|E].
    + unfold set_cy; simpl. f_equal; lia.
    + unfold set_cy; simpl. f_equal. unwrap. lia.
Qed.

(* ===================================================================== *)
(** ** processKeyPress: the page keys *)
(* ===================================================================== *)

Lemma readKey_pg_up (inp b : list byte) :
  stdin_Read inp b = [x1b; "["; "5"; "~"]%byte ->
  readKey inp b = Done (PG_UP, [x1b; "["; "5"; "~"]%byte).
Proof.
  intros H. rewrite (readKey_csi _ _ _ _ H), readKey_page_eq. reflexivity.
Qed.

Lemma readKey_pg_down (inp b : list byte) :
  stdin_Read inp b = [x1b; "["; "6"; "~"]%byte ->
  readKey inp b = Done (PG_DOWN, [x1b; "["; "6"; "~"]%byte).
Proof.
  intros H. rewrite (readKey_csi _ _ _ _ H), readKey_page_eq. reflexivity.
Qed.

(** C5: in a state within bounds, PG_UP applies the ARW_UP move of
    moveCursor exactly height + 1 times and PG_DOWN the ARW_DOWN move
    exactly height + 1 times; the first leaves the cursor on row 0, the
    second on row height - 1 (from any row, row 0 among them), and
    neither touches anything else. *)
Theorem processKeyPress_page_keys (fuel : nat) (ed : Editor)
    (inp b : list byte) :
  viewport_ok ed -> in_bounds ed ->
  height ed < int_max ->
  (Z.to_nat (height ed + 1) <= fuel)%nat ->
  (stdin_Read inp b = [x1b; "["; "5"; "~"]%byte ->
     processKeyPress fuel ed inp b
     = Done (Nat.iter (Z.to_nat (height ed + 1))
               (fun e => moveCursor e ARW_UP) ed,
             [x1b; x00; "5"; "~"]%byte, EmptyString, true) /\
     Nat.iter (Z.to_nat (height ed + 1)) (fun e => moveCursor e ARW_UP) ed
     = set_cy ed 0) /\
  (stdin_Read inp b = [x1b; "["; "6"; "~"]%byte ->
     processKeyPress fuel ed inp b
     = Done (Nat.iter (Z.to_nat (height ed + 1))
               (fun e => moveCursor e ARW_DOWN) ed,
             [x1b; x00; "6"; "~"]%byte, EmptyString, true) /\
     Nat.iter (Z.to_nat (height ed + 1)) (fun e => moveCursor e ARW_DOWN) ed
     = set_cy ed (height ed - 1)).
Proof.
  intros [Hw Hh] [Hx Hy] Hlt Hfuel. split; intros H.
  - split.
    + assert (E : processKeyPress fuel ed inp b
                  = (ed' ← page_loop fuel ed ARW_UP;
                     Done (ed', [x1b; x00; "5"; "~"]%byte, EmptyString, true))).
      { unfold processKeyPress. rewrite (readKey_pg_up _ _ H). reflexivity. }
      rewrite E, page_loop_iter by lia. reflexivity.
    + rewrite iter_up by lia. f_equal. lia.
  - split.
    + assert (E : processKeyPress fuel ed inp b
                  = (ed' ← page_loop fuel ed ARW_DOWN;
                     Done (ed', [x1b; x00; "6"; "~"]%byte, EmptyString, true))).
      { unfold processKeyPress. rewrite (readKey_pg_down _ _ H). reflexivity. }
      rewrite E, page_loop_iter by lia. reflexivity.
    + rewrite iter_down by lia. f_equal. lia.
Qed.

Lemma processKeyPress_page_keys_witness :
  processKeyPress 25 (mkEditor 80 24 5 0)
    [x1b; "["; "6"; "~"]%byte [x00; x00; x00; x00]
  = Done (Nat.iter (Z.to_nat (24 + 1))
            (fun e => moveCursor e ARW_DOWN) (mkEditor 80 24 5 0),
          [x1b; x00; "6"; "~"]%byte, EmptyString, true) /\
  Nat.iter (Z.to_nat (24 + 1))
    (fun e => moveCursor e ARW_DOWN) (mkEditor 80 24 5 0)
  = set_cy (mkEditor 80 24 5 0) (24 - 1).
Proof.
  apply (proj2 (processKeyPress_page_keys 25 (mkEditor 80 24 5 0)
                  [x1b; "["; "6"; "~"]%byte [x00; x00; x00; x00]
                  ltac:(unfold viewport_ok, int_max; simpl; lia)
                  ltac:(unfold in_bounds; simpl; lia)
                  ltac:(unfold int_max; simpl; lia)
                  ltac:(simpl; lia))).
  reflexivity.
Defined.

(* ===================================================================== *)
(** ** processKeyPress keeps the cursor in bounds *)
(* ===================================================================== *)

Lemma readKey_total (inp b : list byte) :
  length b = 4%nat ->
  exists ch, readKey inp b = Done (ch, stdin_Read inp b).
Proof.
  intros Hlen. unfold readKey.
  pose proof (length_stdin_Read inp b) as Hl. rewrite Hlen in Hl.
  destruct (stdin_Read inp b) as [|e [|l [|c [|d [|]]]]]; try discriminate Hl.
  change (index [e; l; c; d] 0) with (Done e).
  change (index [e; l; c; d] 1) with (Done l).
  change (index [e; l; c; d] 2) with (Done c).
  cbv [mbind res_bind]. rewrite readKey_page_eq.
  repeat match goal with
         | |- context [if ?t then _ else _] => destruct t
         end; eauto.
Qed.

(** C1: from a state within bounds, on a viewport of at least one cell
    each way, whatever the input: whenever processKeyPress returns, the
    state it returns is within bounds, on the same viewport; and it does
    return, given fuel for the height + 1 rounds of a page key. *)
Theorem processKeyPress_in_bounds (fuel : nat) (ed : Editor)
    (inp b : list byte) :
  viewport_ok ed -> in_bounds ed ->
  length b = 4%nat ->
  (forall ed' b' out run,
     processKeyPress fuel ed inp b = Done (ed', b', out, run) ->
     0 <= cx ed' < width ed' /\ 0 <= cy ed' < height ed' /\
     width ed' = width ed /\ height ed' = height ed) /\
  (height ed < int_max -> (Z.to_nat (height ed + 1) <= fuel)%nat ->
   exists ed' b' out run,
     processKeyPress fuel ed inp b = Done (ed', b', out, run)).
Proof.
  intros Hv Hb Hlen.
  destruct (readKey_total inp b Hlen) as [ch Hrk].
  unfold processKeyPress. rewrite Hrk.
  cbv [mbind res_bind].
  rewrite store_lt by (rewrite length_stdin_Read; lia).
  assert (Hkeep : in_bounds ed /\ width ed = width ed /\ height ed = height ed)
    by done.
  assert (Hmove : in_bounds (moveCursor ed ch) /\
                  width (moveCursor ed ch) = width ed /\
                  height (moveCursor ed ch) = height ed).
  { split; [by apply moveCursor_in_bounds | apply moveCursor_dims]. }
  pose proof (page_loop_in_bounds fuel ed) as Hpage.
  split.
  - intros ed' b' out run.
    destruct (ch =? Z.land 31 (u8 "q"));
      [intros [= <- _ _ _]; unfold in_bounds in *; tauto|].
    destruct ((ch =? ARW_UP) || (ch =? ARW_DOWN) || (ch =? ARW_RIGHT)
              || (ch =? ARW_LEFT));
      [intros [= <- _ _ _]; unfold in_bounds in *; tauto|].
    destruct (ch =? PG_UP).
    { destruct (page_loop fuel ed ARW_UP) as [e| |] eqn:E; try done.
      intros [= <- _ _ _].
      pose proof (Hpage e ARW_UP Hv Hb E). unfold in_bounds in *; tauto. }
    destruct (ch =? PG_DOWN).
    { destruct (page_loop fuel ed ARW_DOWN) as [e| |] eqn:E; try done.
      intros [= <- _ _ _].
      pose proof (Hpage e ARW_DOWN Hv Hb E). unfold in_bounds in *; tauto. }
    destruct (ch <? 32);
      [intros [= <- _ _ _]; unfold in_bounds in *; tauto|].
    destruct (ch =? 127);
      intros [= <- _ _ _]; unfold in_bounds in *; tauto.
  - intros Hlt Hfuel.
    destruct (ch =? Z.land 31 (u8 "q")); [by eauto 10|].
    destruct ((ch =? ARW_UP) || (ch =? ARW_DOWN) || (ch =? ARW_RIGHT)
              || (ch =? ARW_LEFT)); [by eauto 10|].
    destruct (ch =? PG_UP); [rewrite page_loop_iter by lia; by eauto 10|].
    destruct (ch =? PG_DOWN); [rewrite page_loop_iter by lia; by eauto 10|].
    destruct (ch <? 32); [by eauto 10|].
    destruct (ch =? 127); by eauto 10.
Qed.

Lemma processKeyPress_in_bounds_witness :
  (forall ed' b' out run,
     processKeyPress 25 (mkEditor 80 24 79 0)
       [x1b; "["; "C"]%byte [x00; x00; x00; x00]
     = Done (ed', b', out, run) ->
     0 <= cx ed' < width ed' /\ 0 <= cy ed' < height ed' /\
     width ed' = 80 /\ height ed' = 24) /\
  (exists ed' b' out run,
     processKeyPress 25 (mkEditor 80 24 79 0)
       [x1b; "["; "C"]%byte [x00; x00; x00; x00]
     = Done (ed', b', out, run)).
Proof.
  destruct (processKeyPress_in_bounds 25 (mkEditor 80 24 79 0)
              [x1b; "["; "C"]%byte [x00; x00; x00; x00]
              ltac:(unfold viewport_ok, int_max; simpl; lia)
              ltac:(unfold in_bounds; simpl; lia)
              eq_refl) as [Hsafe Hret].
  split; [exact Hsafe|].
  apply Hret; [unfold int_max; simpl; lia | simpl; lia].
Defined.

(* ===================================================================== *)
(** ** Strings *)
(* ===================================================================== *)

Lemma str_app_cons (x : ascii) (a b : string) :
  String x a +:+ b = String x (a +:+ b).
Proof. reflexivity. Qed.

Lemma str_app_nil_l (a : string) : EmptyString +:+ a = a.
Proof. reflexivity. Qed.

Lemma str_app_assoc (a b c : string) : (a +:+ b) +:+ c = a +:+ (b +:+ c).
Proof.
  induction a as [|x a IH]; [reflexivity|].
  by rewrite !str_app_cons, IH.
Qed.

Lemma str_app_nil_r (a : string) : a +:+ EmptyString = a.
Proof.
  induction a as [|x a IH]; [reflexivity|].
  by rewrite str_app_cons, IH.
Qed.

Lemma len_app (a b : string) : len (a +:+ b) = len a + len b.
Proof.
  unfold len. induction a as [|x a IH]; [reflexivity|].
  rewrite str_app_cons. simpl String.length.
  rewrite !Nat2Z.inj_succ. lia.
Qed.

Lemma iter_append_space (n : nat) :
  forall s : string, Nat.iter n (fun s => s +:+ " ") s = s +:+ spaces n.
Proof.
  induction n as [|n IH]; intros s.
  - simpl. by rewrite str_app_nil_r.
  - rewrite Nat.iter_succ_r, IH, str_app_assoc. reflexivity.
Qed.

Lemma iter_from_append (g : Z -> string) (n : nat) :
  forall (i : Z) (s : string),
    iter_from (fun y s => s +:+ g y) n i s
    = s +:+ cat (g <$> seqZ i (Z.of_nat n)).
Proof.
  induction n as [|n IH]; intros i s.
  - simpl. by rewrite str_app_nil_r.
  - rewrite seqZ_cons by lia. simpl iter_from. rewrite IH.
    replace (Z.pred (Z.of_nat (S n))) with (Z.of_nat n) by lia.
    replace (Z.succ i) with (i + 1) by lia.
    simpl. by rewrite str_app_assoc.
Qed.

Lemma len_cat_const (g : Z -> string) (k : Z) (l : list Z) :
  (forall y, y ∈ l -> len (g y) = k) ->
  len (cat (g <$> l)) = k * Z.of_nat (length l).
Proof.
  induction l as [|y l IH]; intros H.
  - unfold len; simpl. lia.
  - change (cat (g <$> y :: l)) with (g y +:+ cat (g <$> l)).
    rewrite len_app, IH, (H y).
    + simpl length. lia.
    + by left.
    + intros z Hz. apply H. by right.
Qed.

(* ===================================================================== *)
(** ** drawRows *)
(* ===================================================================== *)

Lemma padding_loop (fuel : nat) (p : Z) (s : string) :
  p < int_max ->
  (Z.to_nat p <= fuel)%nat ->
  for_loop fuel (fun i _ => i <=? p) (fun _ screen => Done (screen +:+ " "))
    1 s
  = Done (s +:+ spaces (Z.to_nat p)).
Proof.
  intros Hp Hfuel.
  rewrite <- iter_append_space, <- (iter_from_const _ _ 1).
  apply (for_loop_run _ _ (fun _ => True)).
  - unfold int_min; lia.
  - unfold int_max in *; lia.
  - exact I.
  - intros k s' Hk _. repeat split. apply Z.leb_le. lia.
  - intros s' _. apply Z.leb_gt. lia.
  - exact Hfuel.
Qed.

Lemma div3_bounds (h : Z) : 1 <= h -> 0 <= h / 3 < h.
Proof.
  intros H. split; [apply Z.div_pos | apply Z.div_lt_upper_bound]; lia.
Qed.

Lemma quot_height_3 (ed : Editor) :
  0 <= height ed <= int_max -> int_quot (height ed) 3 = height ed / 3.
Proof.
  unfold int_max. intros H.
  rewrite int_quot_id; rewrite Z.quot_div_nonneg by lia; [reflexivity|].
  unfold is_int, int_min, int_max.
  pose proof (Z.div_pos (height ed) 3). 
  pose proof (Z.div_le_upper_bound (height ed) 3 (height ed)). lia.
Qed.

(** A row other than the banner row. *)
Lemma drawRow_plain (fuel : nat) (ed : Editor) (y : Z) (s : string) :
  1 <= height ed <= int_max ->
  y <> height ed / 3 ->
  drawRow fuel ed y s = Done (s +:+ row_spec ed y).
Proof.
  intros Hh Hy. unfold drawRow, row_spec.
  rewrite quot_height_3 by lia.
  apply Z.eqb_neq in Hy. rewrite Hy.
  assert (Hh1 : int_sub (height ed) 1 = height ed - 1).
  { unfold int_max in Hh. unwrap. lia. }
  rewrite Hh1. cbv [mbind res_bind]. unfold CLEAR_LINE, CRLF.
  destruct (y <? height ed - 1);
    by rewrite ?str_app_assoc, ?str_app_nil_r.
Qed.

(** The banner row on a viewport wide enough for the message. *)
Lemma drawRow_banner_wide (fuel : nat) (ed : Editor) (s : string) :
  1 <= height ed <= int_max ->
  len message <= width ed <= int_max ->
  (Z.to_nat (width ed) <= fuel)%nat ->
  drawRow fuel ed (height ed / 3) s
  = Done (s +:+ row_spec ed (height ed / 3)).
Proof.
  intros Hh Hw Hfuel. unfold drawRow, row_spec, drawBanner.
  rewrite quot_height_3 by lia. rewrite Z.eqb_refl.
  assert (Hh1 : int_sub (height ed) 1 = height ed - 1).
  { unfold int_max in Hh. unwrap. lia. }
  rewrite Hh1.
  assert (Hlen : len message = 37) by reflexivity.
  rewrite Hlen in *.
  destruct (Z.gtb_spec 37 (width ed)) as [Hgt|_]; [lia|].
  assert (Hsub : int_sub (width ed) 37 = width ed - 37).
  { unfold int_max in Hw. unwrap. lia. }
  assert (Hpad : int_quot (width ed - 37) 2 = (width ed - 37) / 2).
  { unfold int_max in Hw.
    rewrite int_quot_id; rewrite Z.quot_div_nonneg by lia; [reflexivity|].
    unfold is_int, int_min, int_max.
    pose proof (Z.div_pos (width ed - 37) 2).
    pose proof (Z.div_le_upper_bound (width ed - 37) 2 (width ed)). lia. }
  rewrite Hsub, Hpad.
  assert (Hp : 0 <= (width ed - 37) / 2 <= width ed - 37).
  { pose proof (Z.div_pos (width ed - 37) 2).
    pose proof (Z.div_le_upper_bound (width ed - 37) 2 (width ed - 37)).
    lia. }
  cbv [mbind res_bind].
  rewrite padding_loop by (unfold int_max in *; lia).
  unfold CLEAR_LINE, CRLF.
  destruct (height ed / 3 <? height ed - 1);
    by rewrite ?str_app_assoc, ?str_app_nil_r.
Qed.

(** The rows above the banner row: the test of the loop passes and each
    one is appended as the specification words it. *)
Lemma drawRows_above_banner (fuel fuel' : nat) (ed : Editor) (n : nat) :
  1 <= height ed <= int_max ->
  Z.of_nat n <= height ed / 3 ->
  for_loop (n + fuel') (fun y _ => y <? height ed) (drawRow fuel ed)
    0 EmptyString
  = for_loop fuel' (fun y _ => y <? height ed) (drawRow fuel ed)
      (Z.of_nat n) (cat (row_spec ed <$> seqZ 0 (Z.of_nat n))).
Proof.
  intros Hh Hn. pose proof (div3_bounds (height ed) ltac:(lia)) as Hd.
  destruct (for_loop_prefix (fun y _ => y <? height ed) (drawRow fuel ed)
              (fun _ => True) (fun y s => s +:+ row_spec ed y)
              n fuel' 0 EmptyString) as [E _].
  - unfold int_min; lia.
  - unfold int_max in *; lia.
  - exact I.
  - intros k s' Hk _. repeat split.
    + apply Z.ltb_lt. lia.
    + apply drawRow_plain; lia.
  - rewrite E, iter_from_append, str_app_nil_l. reflexivity.
Qed.

Lemma len_row_above_banner (ed : Editor) (y : Z) :
  1 <= height ed -> y < height ed / 3 -> len (row_spec ed y) = 6.
Proof.
  intros Hh Hy. pose proof (div3_bounds (height ed) Hh) as Hd.
  unfold row_spec.
  destruct (Z.eqb_spec y (height ed / 3)) as [E|_]; [lia|].
  destruct (Z.ltb_spec y (height ed - 1)) as [_|E]; [reflexivity | lia].
Qed.

Lemma len_rows_above_banner (ed : Editor) :
  1 <= height ed ->
  len (cat (row_spec ed <$> seqZ 0 (height ed / 3))) = 6 * (height ed / 3).
Proof.
  intros Hh. pose proof (div3_bounds (height ed) Hh) as Hd.
  rewrite (len_cat_const _ 6).
  - rewrite length_seqZ. lia.
  - intros y Hy. apply elem_of_seqZ in Hy.
    apply len_row_above_banner; lia.
Qed.

Lemma slice_to_short (s : string) (n : Z) :
  len s < n -> slice_to s n = Panic SliceBoundsOutOfRange.
Proof.
  intros H. unfold slice_to.
  destruct (Z.leb_spec n (len s)) as [E|_]; [lia|].
  by rewrite andb_false_r.
Qed.

(** The banner row on a viewport too narrow for the message, when the
    rows printed so far are shorter than the width. *)
Lemma drawRow_banner_short (fuel : nat) (ed : Editor) (s : string) :
  1 <= height ed <= int_max ->
  width ed < len message ->
  len s < width ed ->
  drawRow fuel ed (height ed / 3) s = Panic SliceBoundsOutOfRange.
Proof.
  intros Hh Hw Hs. unfold drawRow, drawBanner.
  rewrite quot_height_3 by lia. rewrite Z.eqb_refl.
  destruct (Z.gtb_spec (len message) (width ed)) as [_|E]; [|lia].
  rewrite slice_to_short by done. reflexivity.
Qed.

(** The banner row on a viewport too narrow for the message, when the
    rows printed so far are at least as long as the width: the first
    [width] bytes of all that was printed stay, and the marker and the
    whole message follow, with no padding. *)
Lemma drawRow_banner_cut (fuel : nat) (ed : Editor) (s : string) :
  1 <= height ed <= int_max ->
  0 <= width ed < len message ->
  width ed <= len s ->
  drawRow fuel ed (height ed / 3) s
  = Done (substring 0 (Z.to_nat (width ed)) s
          +:+ "~" +:+ message +:+ CLEAR_LINE
          +:+ (if height ed / 3 <? height ed - 1 then CRLF else EmptyString)).
Proof.
  intros Hh Hw Hs. unfold drawRow, drawBanner.
  rewrite quot_height_3 by lia. rewrite Z.eqb_refl.
  assert (Hh1 : int_sub (height ed) 1 = height ed - 1).
  { unfold int_max in Hh. unwrap. lia. }
  rewrite Hh1.
  destruct (Z.gtb_spec (len message) (width ed)) as [_|E]; [|lia].
  assert (Hcut : slice_to s (width ed)
                 = Done (substring 0 (Z.to_nat (width ed)) s)).
  { unfold slice_to.
    destruct (Z.leb_spec 0 (width ed)); [|lia].
    destruct (Z.leb_spec (width ed) (len s)); [reflexivity|lia]. }
  rewrite Hcut. cbv [mbind res_bind].
  assert (Hlen : len message = 37) by reflexivity.
  rewrite Hlen in *.
  assert (Hsub : int_sub (width ed) 37 = width ed - 37) by (unwrap; lia).
  assert (Hpad : int_quot (width ed - 37) 2 <= 0).
  { rewrite int_quot_id.
    - apply Z.quot_le_upper_bound; lia.
    - unfold is_int, int_min, int_max.
      pose proof (Z.quot_le_upper_bound (width ed - 37) 2 0).
      pose proof (Z.quot_le_lower_bound (width ed - 37) 2 (-37)). lia. }
  rewrite Hsub, for_loop_exit by (apply Z.leb_gt; lia).
  destruct (height ed / 3 <? height ed - 1);
    by rewrite ?str_app_assoc, ?str_app_nil_r.
Qed.

(** C3: on a viewport of width at least 1 and below the length of the
    message, of height at least 1, whose width exceeds 6 * (height / 3),
    drawRows reaches the banner row with a buffer of 6 * (height / 3)
    bytes, shorter than the width, where screen[:width] panics with a slice
    bound out of range: drawRows, and refresh with it, print no frame. *)
Theorem drawRows_narrow_panics (fuel : nat) (ed : Editor) :
  1 <= width ed < len message ->
  1 <= height ed <= int_max ->
  6 * (height ed / 3) < width ed ->
  (Z.to_nat (height ed / 3) < fuel)%nat ->
  len (cat (row_spec ed <$> seqZ 0 (height ed / 3))) < width ed /\
  slice_to (cat (row_spec ed <$> seqZ 0 (height ed / 3))) (width ed)
  = Panic SliceBoundsOutOfRange /\
  drawRows fuel ed = Panic SliceBoundsOutOfRange /\
  refresh fuel ed = Panic SliceBoundsOutOfRange.
Proof.
  intros Hw Hh Hshort Hfuel.
  pose proof (div3_bounds (height ed) ltac:(lia)) as Hd.
  assert (Hlen : len (cat (row_spec ed <$> seqZ 0 (height ed / 3)))
                 < width ed).
  { rewrite len_rows_above_banner; lia. }
  assert (Hrows : drawRows fuel ed = Panic SliceBoundsOutOfRange).
  { unfold drawRows.
    remember (Z.to_nat (height ed / 3)) as n eqn:Hn.
    assert (Hk : Z.of_nat n = height ed / 3) by lia.
    destruct (Nat.lt_exists_pred n fuel Hfuel) as (f' & Hf' & _).
    assert (Hfu : fuel = (n + S (f' - n))%nat) by lia.
    rewrite Hfu at 1.
    rewrite drawRows_above_banner by lia.
    apply for_loop_panic.
    - apply Z.ltb_lt. lia.
    - rewrite Hk. apply drawRow_banner_short; [lia | lia | exact Hlen]. }
  repeat split; try done.
  - by apply slice_to_short.
  - unfold refresh. rewrite Hrows. reflexivity.
Qed.

Lemma drawRows_narrow_panics_witness :
  len (cat (row_spec (mkEditor 10 3 0 0) <$> seqZ 0 (3 / 3))) < 10 /\
  slice_to (cat (row_spec (mkEditor 10 3 0 0) <$> seqZ 0 (3 / 3))) 10
  = Panic SliceBoundsOutOfRange /\
  drawRows 3 (mkEditor 10 3 0 0) = Panic SliceBoundsOutOfRange /\
  refresh 3 (mkEditor 10 3 0 0) = Panic SliceBoundsOutOfRange.
Proof.
  apply (drawRows_narrow_panics 3 (mkEditor 10 3 0 0)).
  - unfold len; simpl; lia.
  - unfold int_max; simpl; lia.
  - reflexivity.
  - cbv; lia.
Defined.

(** C2, at a narrow viewport a terminal can have, 36 columns by 17 rows:
    the message is longer than the width, and the rows above the banner
    row (5 of them, 30 bytes) are shorter than the width, so drawRows
    panics where the truncation was to take place. *)
Theorem drawRows_36x17_panics :
  len message > width (mkEditor 36 17 0 0) /\
  drawRows 17 (mkEditor 36 17 0 0) = Panic SliceBoundsOutOfRange /\
  refresh 17 (mkEditor 36 17 0 0) = Panic SliceBoundsOutOfRange.
Proof. repeat split; vm_compute; reflexivity. Qed.

(** Where the rows above the banner row are long enough, at 5 columns by
    9 rows: the first 5 bytes of the 18 printed so far stay, and the whole
    message follows them. *)
Example drawRows_5x9 :
  drawRows 9 (mkEditor 5 9 0 0)
  = Done (("~" +:+ ESC +:+ "[K" +:+ CR)
          +:+ "~" +:+ message +:+ ESC +:+ "[K" +:+ CRLF
          +:+ cat (row_spec (mkEditor 5 9 0 0) <$> seqZ 4 5)).
Proof. vm_compute. reflexivity. Qed.

(* ===================================================================== *)
(** ** refresh on a viewport wide enough for the message *)
(* ===================================================================== *)

Lemma drawRows_wide (fuel : nat) (ed : Editor) :
  1 <= height ed <= int_max ->
  len message <= width ed <= int_max ->
  (Z.to_nat (height ed) <= fuel)%nat ->
  (Z.to_nat (width ed) <= fuel)%nat ->
  drawRows fuel ed = Done (cat (row_spec ed <$> seqZ 0 (height ed))).
Proof.
  intros Hh Hw Hfh Hfw. unfold drawRows.
  transitivity
    (Done (iter_from (fun y s => s +:+ row_spec ed y)
             (Z.to_nat (height ed)) 0 EmptyString));
    [|by rewrite iter_from_append, Z2Nat.id, str_app_nil_l by lia].
  apply (for_loop_run _ _ (fun _ => True)).
  - unfold int_min; lia.
  - unfold int_max in *; lia.
  - exact I.
  - intros k s' Hk _. repeat split.
    + apply Z.ltb_lt. lia.
    + destruct (Z.eq_dec k (height ed / 3)) as [->|Hne].
      * by apply drawRow_banner_wide.
      * by apply drawRow_plain.
  - intros s' _. apply Z.ltb_ge. lia.
  - exact Hfh.
Qed.

(** C10: on a viewport at least as wide as the message, refresh prints
    exactly the frame of the specification: <esc>[?25l, <esc>[H, the
    height rows (the one at index height / 3 with the centred message,
    the others with the marker alone, each followed by <esc>[K, and by a
    line break unless it is the last), the cursor sequence for
    (cy + 1, cx + 1), and <esc>[?25h. *)
Theorem refresh_frame (fuel : nat) (ed : Editor) :
  viewport_ok ed -> in_bounds ed ->
  len message <= width ed ->
  (Z.to_nat (height ed) <= fuel)%nat ->
  (Z.to_nat (width ed) <= fuel)%nat ->
  refresh fuel ed = Done (frame_spec ed).
Proof.
  intros [Hw Hh] [Hx Hy] Hm Hfh Hfw.
  unfold refresh. rewrite drawRows_wide by lia.
  cbv [mbind res_bind]. unfold frame_spec, HIDE_CURSOR, HOME, SHOW_CURSOR.
  unfold int_max in *. unwrap.
  by rewrite !str_app_assoc.
Qed.

Lemma refresh_frame_witness :
  refresh 80 (mkEditor 80 24 5 7) = Done (frame_spec (mkEditor 80 24 5 7)).
Proof.
  apply (refresh_frame 80 (mkEditor 80 24 5 7)).
  - unfold viewport_ok, int_max; simpl; lia.
  - unfold in_bounds; simpl; lia.
  - unfold len; simpl; lia.
  - simpl; lia.
  - simpl; lia.
Defined.

(* ===================================================================== *)
(** ** More on readKey and processKeyPress *)
(* ===================================================================== *)

Lemma u8_range (a : byte) : 0 <= u8 a <= 255.
Proof.
  unfold u8. pose proof (Byte.to_N_bounded a). lia.
Qed.

(** What the decoder can return on a buffer of four bytes: the value of
    the first byte, or one of the six codes, the latter only after
    [<esc>[]. *)
Lemma readKey_classify (inp b : list byte) (b0 b1 b2 b3 : byte) :
  stdin_Read inp b = [b0; b1; b2; b3] ->
  exists ch,
    readKey inp b = Done (ch, [b0; b1; b2; b3]) /\
    (ch = u8 b0 \/
     (b0 = x1b /\ b1 = "["%byte /\ ARW_LEFT <= ch <= PG_DOWN)).
Proof.
  intros H. unfold readKey. rewrite H.
  change (index [b0; b1; b2; b3] 0) with (Done b0).
  change (index [b0; b1; b2; b3] 1) with (Done b1).
  change (index [b0; b1; b2; b3] 2) with (Done b2).
  cbv [mbind res_bind]. rewrite readKey_page_eq.
  destruct (Z.eqb_spec (u8 b0) 27) as [E0|_]; [|by eauto].
  assert (Hesc : b0 = x1b) by (by apply u8_inj).
  destruct (u8 b1 =? u8 "[") eqn:E1; simpl negb; cbv iota;
    [|eexists; split; [reflexivity | left; by rewrite E0]].
  apply u8_eqb_eq in E1.
  unfold ARW_LEFT, ARW_UP, ARW_RIGHT, ARW_DOWN, PG_UP, PG_DOWN.
  repeat match goal with
         | |- context [if ?t then _ else _] => destruct t
         end;
    eexists; (split; [reflexivity|]);
    first [right; repeat split; (done || lia) | left; by rewrite E0].
Qed.

(** X1: on a buffer of four bytes readKey returns either the value of the
    first byte, between 0 and 255, or one of the six codes 1000..1005, and
    a code only when the buffer starts with <esc>[: no byte read is ever
    taken for an arrow or a page key. *)
Theorem readKey_codes_apart (inp b : list byte) :
  length b = 4%nat ->
  exists ch,
    readKey inp b = Done (ch, stdin_Read inp b) /\
    ((0 <= ch <= 255 /\ (u8 <$> stdin_Read inp b) !! 0%nat = Some ch) \/
     (ARW_LEFT <= ch <= PG_DOWN /\
      take 2 (stdin_Read inp b) = [x1b; "["%byte])).
Proof.
  intros Hlen.
  pose proof (length_stdin_Read inp b) as Hl. rewrite Hlen in Hl.
  destruct (stdin_Read inp b) as [|b0 [|b1 [|b2 [|b3 [|]]]]] eqn:Hrd;
    try discriminate Hl.
  destruct (readKey_classify inp b b0 b1 b2 b3 Hrd) as (ch & Hrk & Hch).
  exists ch. split; [exact Hrk|].
  destruct Hch as [->|(-> & -> & Hc)].
  - left. split; [apply u8_range | reflexivity].
  - right. split; [exact Hc | reflexivity].
Qed.

Lemma readKey_codes_apart_witness :
  exists ch,
    readKey ["[";"A"]%byte [x1b; x00; x00; x00]
    = Done (ch, stdin_Read ["[";"A"]%byte [x1b; x00; x00; x00]) /\
    ((0 <= ch <= 255 /\
      (u8 <$> stdin_Read ["[";"A"]%byte [x1b; x00; x00; x00]) !! 0%nat
      = Some ch) \/
     (ARW_LEFT <= ch <= PG_DOWN /\
      take 2 (stdin_Read ["[";"A"]%byte [x1b; x00; x00; x00])
      = [x1b; "["%byte])).
Proof.
  apply (readKey_codes_apart ["[";"A"]%byte [x1b; x00; x00; x00]).
  reflexivity.
Defined.

(** One call of processKeyPress on the four-byte buffer, in full: it
    returns the buffer as read with its second slot reset, leaves the
    viewport alone, returns false exactly on the quit byte, and prints the
    clear-screen sequence then and nothing otherwise. *)
Lemma processKeyPress_step (fuel : nat) (ed : Editor) (inp b : list byte) :
  length b = 4%nat ->
  height ed < int_max ->
  (Z.to_nat (height ed + 1) <= fuel)%nat ->
  exists ed' run,
    processKeyPress fuel ed inp b
    = Done (ed', <[1%nat:=x00]> (stdin_Read inp b),
            if run : bool then EmptyString else CLEAR_SCREEN, run) /\
    width ed' = width ed /\ height ed' = height ed /\
    (run = false <-> stdin_Read inp b !! 0%nat = Some x11) /\
    (run = false -> ed' = ed) /\
    (viewport_ok ed -> in_bounds ed -> in_bounds ed').
Proof.
  intros Hlen Hlt Hfuel.
  pose proof (length_stdin_Read inp b) as Hl. rewrite Hlen in Hl.
  destruct (stdin_Read inp b) as [|b0 [|b1 [|b2 [|b3 [|]]]]] eqn:Hrd;
    try discriminate Hl.
  destruct (readKey_classify inp b b0 b1 b2 b3 Hrd) as (ch & Hrk & Hch).
  unfold processKeyPress. rewrite Hrk. cbv [mbind res_bind].
  rewrite store_lt by (simpl; lia).
  change (Z.land 31 (u8 "q")) with 17.
  assert (Hq : ch = 17 <-> [b0; b1; b2; b3] !! 0%nat = Some x11).
  { simpl. split.
    - intros ->. destruct Hch as [E|(_ & _ & Hc)].
      + f_equal. apply u8_inj. by rewrite <- E.
      + unfold ARW_LEFT in Hc. lia.
    - intros [= ->]. destruct Hch as [E|(E & _)]; [exact E | discriminate E]. }
  destruct (Z.eqb_spec ch 17) as [E17|N17].
  { exists ed, false. split_and!; try done. split; [intros _; by apply Hq | done]. }
  assert (Hrun : true = false <-> [b0; b1; b2; b3] !! 0%nat = Some x11).
  { split; [discriminate | intros E; exfalso; apply N17; by apply Hq]. }
  destruct ((ch =? ARW_UP) || (ch =? ARW_DOWN) || (ch =? ARW_RIGHT)
            || (ch =? ARW_LEFT)).
  { exists (moveCursor ed ch), true.
    destruct (moveCursor_dims ed ch) as [Ew Eh].
    split_and!; try done.
    intros. by apply moveCursor_in_bounds. }
  destruct (ch =? PG_UP).
  { destruct (page_loop fuel ed ARW_UP) as [e| |] eqn:E;
      try (rewrite page_loop_iter in E by lia; discriminate E).
    exists e, true.
    assert (Hd : width e = width ed /\ height e = height ed).
    { rewrite page_loop_iter in E by lia. injection E as <-.
      apply Nat.iter_invariant; [|done].
      intros x [<- <-]. apply moveCursor_dims. }
    destruct Hd. split_and!; try done.
    intros Hv Hb. by apply (page_loop_in_bounds fuel ed e ARW_UP). }
  destruct (ch =? PG_DOWN).
  { destruct (page_loop fuel ed ARW_DOWN) as [e| |] eqn:E;
      try (rewrite page_loop_iter in E by lia; discriminate E).
    exists e, true.
    assert (Hd : width e = width ed /\ height e = height ed).
    { rewrite page_loop_iter in E by lia. injection E as <-.
      apply Nat.iter_invariant; [|done].
      intros x [<- <-]. apply moveCursor_dims. }
    destruct Hd. split_and!; try done.
    intros Hv Hb. by apply (page_loop_in_bounds fuel ed e ARW_DOWN). }
  destruct (ch <? 32);
    [exists ed, true; split_and!; done|].
  destruct (ch =? 127);
    exists ed, true; split_and!; done.
Qed.

(** X2: on the four-byte buffer processKeyPress returns false exactly
    when the first byte of the buffer, as read, is 0x11; it prints the
    clear-screen sequence in that case and nothing in any other, and a
    quit leaves the editor as it was. *)
Theorem processKeyPress_stops_only_on_quit (fuel : nat) (ed : Editor)
    (inp b : list byte) :
  length b = 4%nat ->
  height ed < int_max ->
  (Z.to_nat (height ed + 1) <= fuel)%nat ->
  exists ed' b' out run,
    processKeyPress fuel ed inp b = Done (ed', b', out, run) /\
    (run = false <-> stdin_Read inp b !! 0%nat = Some x11) /\
    out = (if run : bool then EmptyString else ESC +:+ "[H" +:+ ESC +:+ "[2J") /\
    (run = false -> ed' = ed).
Proof.
  intros Hlen Hlt Hfuel.
  destruct (processKeyPress_step fuel ed inp b Hlen Hlt Hfuel)
    as (ed' & run & E & _ & _ & Hrun & Hed & _).
  exists ed', (<[1%nat:=x00]> (stdin_Read inp b)),
    (if run then EmptyString else CLEAR_SCREEN), run.
  split_and!; done.
Qed.

Lemma processKeyPress_stops_only_on_quit_witness :
  exists ed' b' out run,
    processKeyPress 25 (mkEditor 80 24 3 4) ["q"]%byte [x00; x00; x00; x00]
    = Done (ed', b', out, run) /\
    (run = false <->
     stdin_Read ["q"]%byte [x00; x00; x00; x00] !! 0%nat = Some x11) /\
    out = (if run : bool then EmptyString else ESC +:+ "[H" +:+ ESC +:+ "[2J") /\
    (run = false -> ed' = mkEditor 80 24 3 4).
Proof.
  apply (processKeyPress_stops_only_on_quit 25 (mkEditor 80 24 3 4)
           ["q"]%byte [x00; x00; x00; x00]).
  - reflexivity.
  - unfold int_max; simpl; lia.
  - simpl; lia.
Defined.

(** X3: a first byte that is neither the quit byte nor <esc> has no
    effect, whatever it is and whatever follows it in the buffer:
    processKeyPress returns true, prints nothing and returns the editor as
    it was. Nothing typed is inserted anywhere. *)
Theorem processKeyPress_plain_byte (fuel : nat) (ed : Editor)
    (inp b : list byte) (b0 b1 : byte) (rest : list byte) :
  stdin_Read inp b = b0 :: b1 :: rest ->
  b0 <> x11 -> b0 <> x1b ->
  processKeyPress fuel ed inp b
  = Done (ed, b0 :: x00 :: rest, EmptyString, true).
Proof.
  intros H Hq Hesc. unfold processKeyPress, readKey. rewrite H.
  change (index (b0 :: b1 :: rest) 0) with (Done b0).
  cbv [mbind res_bind].
  apply u8_eqb_neq in Hesc. change (u8 x1b) with 27 in Hesc. rewrite Hesc.
  rewrite store_lt by (simpl; lia).
  apply u8_eqb_neq in Hq. change (u8 x11) with 17 in Hq.
  change (Z.land 31 (u8 "q")) with 17. rewrite Hq.
  pose proof (u8_range b0) as Hr.
  unfold ARW_UP, ARW_DOWN, ARW_RIGHT, ARW_LEFT, PG_UP, PG_DOWN.
  repeat match goal with
         | |- context [?x =? ?y] =>
             destruct (Z.eqb_spec x y); [lia|]
         end.
  simpl orb. cbv iota.
  destruct (u8 b0 <? 32); [reflexivity|].
  destruct (u8 b0 =? 127); reflexivity.
Qed.

Lemma processKeyPress_plain_byte_witness :
  processKeyPress 0 (mkEditor 80 24 3 4) ["a"]%byte [x1b; "["; "A"; x00]%byte
  = Done (mkEditor 80 24 3 4, ["a"; x00; "A"; x00]%byte, EmptyString, true).
Proof.
  apply (processKeyPress_plain_byte 0 (mkEditor 80 24 3 4)
           ["a"]%byte [x1b; "["; "A"; x00]%byte "a"%byte "["%byte
           ["A"; x00]%byte);
    [reflexivity | discriminate | discriminate].
Defined.

(** Whenever processKeyPress returns on the four-byte buffer, whatever the
    fuel, the buffer it returns is the buffer as read with its second
    slot reset. *)
Lemma processKeyPress_buffer (fuel : nat) (ed ed' : Editor)
    (inp b b' : list byte) (out : string) (run : bool) :
  length b = 4%nat ->
  processKeyPress fuel ed inp b = Done (ed', b', out, run) ->
  b' = <[1%nat:=x00]> (stdin_Read inp b).
Proof.
  intros Hlen.
  destruct (readKey_total inp b Hlen) as [ch Hrk].
  unfold processKeyPress. rewrite Hrk. cbv [mbind res_bind].
  rewrite store_lt by (rewrite length_stdin_Read; lia).
  destruct (ch =? Z.land 31 (u8 "q")); [by intros [= _ <- _ _]|].
  destruct ((ch =? ARW_UP) || (ch =? ARW_DOWN) || (ch =? ARW_RIGHT)
            || (ch =? ARW_LEFT)); [by intros [= _ <- _ _]|].
  destruct (ch =? PG_UP).
  { destruct (page_loop fuel ed ARW_UP); try done. by intros [= _ <- _ _]. }
  destruct (ch =? PG_DOWN).
  { destruct (page_loop fuel ed ARW_DOWN); try done. by intros [= _ <- _ _]. }
  destruct (ch <? 32); [by intros [= _ <- _ _]|].
  destruct (ch =? 127); by intros [= _ <- _ _].
Qed.

(** X4: after any call of processKeyPress on the four-byte buffer, a read
    that delivers a single byte decodes to that byte: a lone <esc> typed
    after an arrow or a page key is the key 0x1b, not the sequence the
    buffer still holds from before. *)
Theorem readKey_single_byte_after_key (fuel : nat) (ed ed' : Editor)
    (inp b b' : list byte) (out : string) (run : bool) (c : byte) :
  length b = 4%nat ->
  processKeyPress fuel ed inp b = Done (ed', b', out, run) ->
  readKey [c] b' = Done (u8 c, stdin_Read [c] b').
Proof.
  intros Hlen H.
  rewrite (processKeyPress_buffer _ _ _ _ _ _ _ _ Hlen H).
  pose proof (length_stdin_Read inp b) as Hl. rewrite Hlen in Hl.
  destruct (stdin_Read inp b) as [|b0 [|b1 [|b2 [|b3 [|]]]]];
    try discriminate Hl.
  change (<[1%nat:=x00]> [b0; b1; b2; b3]) with [b0; x00; b2; b3].
  unfold readKey.
  change (stdin_Read [c] [b0; x00; b2; b3]) with [c; x00; b2; b3].
  change (index [c; x00; b2; b3] 0) with (Done c).
  change (index [c; x00; b2; b3] 1) with (Done x00).
  cbv [mbind res_bind].
  destruct (Z.eqb_spec (u8 c) 27) as [E|_]; [|reflexivity].
  change (u8 x00 =? u8 "[") with false. simpl negb. cbv iota.
  by rewrite E.
Qed.

Lemma readKey_single_byte_after_key_witness :
  readKey [x1b] [x1b; x00; "A"; x00]%byte
  = Done (u8 x1b, stdin_Read [x1b] [x1b; x00; "A"; x00]%byte).
Proof.
  apply (readKey_single_byte_after_key 0 (mkEditor 80 24 3 4)
           (mkEditor 80 24 3 3) [x1b; "["; "A"]%byte [x00; x00; x00; x00]
           [x1b; x00; "A"; x00]%byte EmptyString true x1b);
    reflexivity.
Defined.

(* ===================================================================== *)
(** ** More on moveCursor *)
(* ===================================================================== *)

(** X5: in a state whose cursor row is in bounds, ARW_UP then ARW_DOWN
    restores the state when 0 < cy, ARW_DOWN then ARW_UP restores it when
    cy < height - 1; ARW_UP on row 0 and ARW_DOWN on the last row change
    nothing. *)
Theorem moveCursor_up_down (ed : Editor) :
  height ed <= int_max ->
  0 <= cy ed < height ed ->
  (0 < cy ed -> moveCursor (moveCursor ed ARW_UP) ARW_DOWN = ed) /\
  (cy ed < height ed - 1 ->
     moveCursor (moveCursor ed ARW_DOWN) ARW_UP = ed) /\
  (cy ed = 0 -> moveCursor ed ARW_UP = ed) /\
  (cy ed = height ed - 1 -> moveCursor ed ARW_DOWN = ed).
Proof.
  unfold int_max. intros Hh Hy.
  assert (Hh1 : int_sub (height ed) 1 = height ed - 1) by (unwrap; lia).
  split_and!; intros H.
  - rewrite moveCursor_up.
    destruct (Z.eqb_spec (cy ed) 0) as [E|_]; [lia|].
    rewrite moveCursor_down. simpl. rewrite Hh1.
    assert (Hd : int_sub (cy ed) 1 = cy ed - 1) by (unwrap; lia).
    rewrite Hd.
    destruct (Z.eqb_spec (cy ed - 1) (height ed - 1)) as [E|_]; [lia|].
    assert (Hu : int_add (cy ed - 1) 1 = cy ed) by (unwrap; lia).
    rewrite Hu. destruct ed; reflexivity.
  - rewrite moveCursor_down, Hh1.
    destruct (Z.eqb_spec (cy ed) (height ed - 1)) as [E|_]; [lia|].
    rewrite moveCursor_up. simpl.
    assert (Hu : int_add (cy ed) 1 = cy ed + 1) by (unwrap; lia).
    rewrite Hu.
    destruct (Z.eqb_spec (cy ed + 1) 0) as [E|_]; [lia|].
    assert (Hd : int_sub (cy ed + 1) 1 = cy ed) by (unwrap; lia).
    rewrite Hd. destruct ed; reflexivity.
  - rewrite moveCursor_up, H. reflexivity.
  - rewrite moveCursor_down, Hh1, H, Z.eqb_refl. reflexivity.
Qed.

Lemma moveCursor_up_down_witness :
  moveCursor (moveCursor (mkEditor 80 24 5 7) ARW_UP) ARW_DOWN
  = mkEditor 80 24 5 7.
Proof.
  apply (proj1 (moveCursor_up_down (mkEditor 80 24 5 7)
                  ltac:(unfold int_max; simpl; lia) ltac:(simpl; lia)));
    simpl; lia.
Defined.

(** X6: a horizontal and a vertical move commute, in every state: the
    column moves look at cx and width only, the row moves at cy and
    height only. *)
Theorem moveCursor_horizontal_vertical_commute (ed : Editor) :
  moveCursor (moveCursor ed ARW_LEFT) ARW_UP
  = moveCursor (moveCursor ed ARW_UP) ARW_LEFT /\
  moveCursor (moveCursor ed ARW_LEFT) ARW_DOWN
  = moveCursor (moveCursor ed ARW_DOWN) ARW_LEFT /\
  moveCursor (moveCursor ed ARW_RIGHT) ARW_UP
  = moveCursor (moveCursor ed ARW_UP) ARW_RIGHT /\
  moveCursor (moveCursor ed ARW_RIGHT) ARW_DOWN
  = moveCursor (moveCursor ed ARW_DOWN) ARW_RIGHT.
Proof.
  destruct ed as [w h x y].
  rewrite !moveCursor_left, !moveCursor_right, !moveCursor_up,
    !moveCursor_down.
  unfold set_cx, set_cy; simpl.
  split_and!;
    repeat (match goal with
            | |- context [if ?c then _ else _] => destruct c eqn:?
            end; simpl in *);
    congruence.
Qed.

Lemma iter_left (n : nat) (ed : Editor) :
  0 <= cx ed <= int_max ->
  Nat.iter n (fun e => moveCursor e ARW_LEFT) ed
  = set_cx ed (Z.max 0 (cx ed - Z.of_nat n)).
Proof.
  unfold int_max. intros Hx. induction n as [|n IH].
  - simpl. rewrite Z.sub_0_r, Z.max_r by lia. by destruct ed.
  - rewrite Nat.iter_succ, IH, moveCursor_left. simpl.
    destruct (Z.eqb_spec (Z.max 0 (cx ed - Z.of_nat n)) 0) as [E|E].
    + unfold set_cx; simpl. f_equal; lia.
    + unfold set_cx; simpl. f_equal. unwrap. lia.
Qed.

Lemma iter_right (n : nat) (ed : Editor) :
  width ed <= int_max ->
  0 <= cx ed < width ed ->
  Nat.iter n (fun e => moveCursor e ARW_RIGHT) ed
  = set_cx ed (Z.min (width ed - 1) (cx ed + Z.of_nat n)).
Proof.
  unfold int_max. intros Hw Hx. induction n as [|n IH].
  - simpl. rewrite Z.add_0_r, Z.min_r by lia. by destruct ed.
  - rewrite Nat.iter_succ, IH, moveCursor_right. simpl.
    assert (Hw1 : int_sub (width ed) 1 = width ed - 1) by (unwrap; lia).
    rewrite Hw1.
    destruct (Z.eqb_spec (Z.min (width ed - 1) (cx ed + Z.of_nat n))
                (width ed - 1)) as [E|E].
    + unfold set_cx; simpl. f_equal; lia.
    + unfold set_cx; simpl. f_equal. unwrap. lia.
Qed.

(** X7: from a state within bounds, [n] moves in one direction are one
    clamped jump: left to max(0, cx - n), right to min(width - 1, cx + n),
    up to max(0, cy - n), down to min(height - 1, cy + n), the other
    coordinate and the viewport untouched. *)
Theorem moveCursor_iter_clamped (n : nat) (ed : Editor) :
  viewport_ok ed -> in_bounds ed ->
  Nat.iter n (fun e => moveCursor e ARW_LEFT) ed
  = mkEditor (width ed) (height ed)
      (Z.max 0 (cx ed - Z.of_nat n)) (cy ed) /\
  Nat.iter n (fun e => moveCursor e ARW_RIGHT) ed
  = mkEditor (width ed) (height ed)
      (Z.min (width ed - 1) (cx ed + Z.of_nat n)) (cy ed) /\
  Nat.iter n (fun e => moveCursor e ARW_UP) ed
  = mkEditor (width ed) (height ed) (cx ed)
      (Z.max 0 (cy ed - Z.of_nat n)) /\
  Nat.iter n (fun e => moveCursor e ARW_DOWN) ed
  = mkEditor (width ed) (height ed) (cx ed)
      (Z.min (height ed - 1) (cy ed + Z.of_nat n)).
Proof.
  intros [Hw Hh] [Hx Hy].
  rewrite iter_left, iter_right, iter_up, iter_down by lia.
  done.
Qed.

Lemma moveCursor_iter_clamped_witness :
  Nat.iter 100 (fun e => moveCursor e ARW_RIGHT) (mkEditor 80 24 5 7)
  = mkEditor 80 24 (Z.min (80 - 1) (5 + Z.of_nat 100)) 7.
Proof.
  apply (proj1 (proj2 (moveCursor_iter_clamped 100 (mkEditor 80 24 5 7)
                         ltac:(unfold viewport_ok, int_max; simpl; lia)
                         ltac:(unfold in_bounds; simpl; lia)))).
Defined.

(** X8: the right edge is found by the test cx == width - 1 alone. A
    cursor at or beyond the width (as the cursor (0, 0) is on a viewport
    of width 0) is not held back: [n] moves to the right take it [n]
    columns further. *)
Theorem moveCursor_right_beyond_width (n : nat) (ed : Editor) :
  int_min < width ed ->
  width ed <= cx ed ->
  cx ed + Z.of_nat n <= int_max ->
  Nat.iter n (fun e => moveCursor e ARW_RIGHT) ed
  = set_cx ed (cx ed + Z.of_nat n).
Proof.
  unfold int_min, int_max. intros Hw Hx. induction n as [|n IH]; intros Hn.
  - simpl. rewrite Z.add_0_r. by destruct ed.
  - rewrite Nat.iter_succ, IH, moveCursor_right by lia. simpl.
    assert (Hw1 : int_sub (width ed) 1 = width ed - 1) by (unwrap; lia).
    rewrite Hw1.
    destruct (Z.eqb_spec (cx ed + Z.of_nat n) (width ed - 1)) as [E|_];
      [lia|].
    unfold set_cx; simpl. f_equal. unwrap. lia.
Qed.

Lemma moveCursor_right_beyond_width_witness :
  Nat.iter 3 (fun e => moveCursor e ARW_RIGHT) (mkEditor 0 0 0 0)
  = set_cx (mkEditor 0 0 0 0) (0 + Z.of_nat 3).
Proof.
  apply (moveCursor_right_beyond_width 3 (mkEditor 0 0 0 0));
    unfold int_min, int_max; simpl; lia.
Defined.

(* ===================================================================== *)
(** ** More on drawRows *)
(* ===================================================================== *)

(** drawRows around its banner row: the rows above it, the banner row
    itself on what they printed, then the rows below it. *)
Lemma drawRows_banner_split (fuel : nat) (ed : Editor) :
  1 <= height ed <= int_max ->
  (Z.to_nat (height ed) <= fuel)%nat ->
  drawRows fuel ed
  = (s ← drawRow fuel ed (height ed / 3)
           (cat (row_spec ed <$> seqZ 0 (height ed / 3)));
     Done (s +:+ cat (row_spec ed <$>
                        seqZ (height ed / 3 + 1)
                             (height ed - height ed / 3 - 1)))).
Proof.
  intros Hh Hfuel. pose proof (div3_bounds (height ed) ltac:(lia)) as Hd.
  unfold drawRows.
  remember (Z.to_nat (height ed / 3)) as n eqn:Hn.
  assert (Hk : Z.of_nat n = height ed / 3) by lia.
  assert (Hfu : fuel = (n + S (fuel - n - 1))%nat) by lia.
  rewrite Hfu at 1.
  rewrite drawRows_above_banner by lia.
  rewrite for_loop_unfold, Hk.
  destruct (Z.ltb_spec (height ed / 3) (height ed)) as [_|E]; [|lia].
  destruct (drawRow fuel ed (height ed / 3)
              (cat (row_spec ed <$> seqZ 0 (height ed / 3))))
    as [s| |]; [|reflexivity..].
  cbv [mbind res_bind].
  assert (Hi : int_add (height ed / 3) 1 = height ed / 3 + 1).
  { unfold int_max in Hh. unwrap. lia. }
  rewrite Hi.
  transitivity
    (Done (iter_from (fun y s => s +:+ row_spec ed y)
             (Z.to_nat (height ed - height ed / 3 - 1))
             (height ed / 3 + 1) s));
    [|by rewrite iter_from_append, Z2Nat.id by lia].
  apply (for_loop_run _ _ (fun _ => True)).
  - unfold int_min; lia.
  - unfold int_max in *; lia.
  - exact I.
  - intros k s' Hk' _. split_and!; [|by apply drawRow_plain; lia|done].
    apply Z.ltb_lt. lia.
  - intros s' _. apply Z.ltb_ge. lia.
  - lia.
Qed.

Lemma slice_to_outside (s : string) (n : Z) :
  n < 0 \/ len s < n -> slice_to s n = Panic SliceBoundsOutOfRange.
Proof.
  intros H. unfold slice_to.
  destruct (Z.leb_spec 0 n), (Z.leb_spec n (len s)); try reflexivity. lia.
Qed.

Lemma drawRow_banner_outside (fuel : nat) (ed : Editor) (s : string) :
  1 <= height ed <= int_max ->
  width ed < len message ->
  width ed < 0 \/ len s < width ed ->
  drawRow fuel ed (height ed / 3) s = Panic SliceBoundsOutOfRange.
Proof.
  intros Hh Hw Hs. unfold drawRow, drawBanner.
  rewrite quot_height_3 by lia. rewrite Z.eqb_refl.
  destruct (Z.gtb_spec (len message) (width ed)) as [_|E]; [|lia].
  rewrite slice_to_outside by done. reflexivity.
Qed.

(** X9: on a viewport narrower than the message whose width is at most
    6 * (height / 3), drawRows returns, and what it prints is cut at the
    banner row: of all the rows above it only the first [width] bytes
    stay (control sequences and line breaks counted as bytes), then come
    the marker, no padding, the whole message, and the rows below as on
    any viewport. *)
Theorem drawRows_narrow_cut (fuel : nat) (ed : Editor) :
  1 <= height ed <= int_max ->
  0 <= width ed < len message ->
  width ed <= 6 * (height ed / 3) ->
  (Z.to_nat (height ed) <= fuel)%nat ->
  drawRows fuel ed
  = Done (substring 0 (Z.to_nat (width ed))
            (cat (row_spec ed <$> seqZ 0 (height ed / 3)))
          +:+ "~" +:+ message +:+ ESC +:+ "[K"
          +:+ (if height ed / 3 <? height ed - 1 then CR +:+ LF
               else EmptyString)
          +:+ cat (row_spec ed <$>
                     seqZ (height ed / 3 + 1)
                          (height ed - height ed / 3 - 1))).
Proof.
  intros Hh Hw Hcut Hfuel.
  rewrite drawRows_banner_split by done.
  rewrite drawRow_banner_cut;
    [|done|done|rewrite len_rows_above_banner; lia].
  cbv [mbind res_bind]. unfold CLEAR_LINE, CRLF.
  by rewrite !str_app_assoc.
Qed.

Lemma drawRows_narrow_cut_witness :
  drawRows 9 (mkEditor 5 9 0 0)
  = Done (substring 0 (Z.to_nat 5)
            (cat (row_spec (mkEditor 5 9 0 0) <$> seqZ 0 (9 / 3)))
          +:+ "~" +:+ message +:+ ESC +:+ "[K"
          +:+ (if 9 / 3 <? 9 - 1 then CR +:+ LF else EmptyString)
          +:+ cat (row_spec (mkEditor 5 9 0 0) <$>
                     seqZ (9 / 3 + 1) (9 - 9 / 3 - 1))).
Proof.
  apply (drawRows_narrow_cut 9 (mkEditor 5 9 0 0)).
  - unfold int_max; simpl; lia.
  - unfold len; simpl; lia.
  - discriminate.
  - simpl; lia.
Defined.

(** X10: for a height of at least 1, drawRows panics exactly on the
    viewports narrower than the message whose width is negative or above
    6 * (height / 3), always with a slice bound out of range; on every
    other viewport it returns. *)
Theorem drawRows_panics_iff (fuel : nat) (ed : Editor) :
  1 <= height ed <= int_max ->
  int_min <= width ed <= int_max ->
  (Z.to_nat (height ed) <= fuel)%nat ->
  (Z.to_nat (width ed) <= fuel)%nat ->
  (drawRows fuel ed = Panic SliceBoundsOutOfRange <->
   width ed < len message /\
   (width ed < 0 \/ 6 * (height ed / 3) < width ed)) /\
  ((exists out, drawRows fuel ed = Done out) <->
   len message <= width ed \/ 0 <= width ed <= 6 * (height ed / 3)).
Proof.
  intros Hh Hw Hfh Hfw.
  destruct (Z.le_gt_cases (len message) (width ed)) as [Hwide|Hnarrow].
  { rewrite drawRows_wide by lia.
    split; split; try done; try lia; eauto. }
  destruct (Z.le_gt_cases 0 (width ed)) as [Hpos|Hneg];
    [destruct (Z.le_gt_cases (width ed) (6 * (height ed / 3)))
       as [Hfit|Hshort]|].
  - rewrite drawRows_narrow_cut by lia.
    split; split; try done; try lia; eauto.
  - rewrite drawRows_banner_split, drawRow_banner_outside;
      [|done|done|right; rewrite len_rows_above_banner; lia|done|done].
    split; split; try done; try lia. by intros [out E].
  - rewrite drawRows_banner_split, drawRow_banner_outside;
      [|done|done|by left|done|done].
    split; split; try done; try lia. by intros [out E].
Qed.

Lemma drawRows_panics_iff_witness :
  (drawRows 80 (mkEditor 36 24 0 0) = Panic SliceBoundsOutOfRange <->
   36 < len message /\ (36 < 0 \/ 6 * (24 / 3) < 36)) /\
  ((exists out, drawRows 80 (mkEditor 36 24 0 0) = Done out) <->
   len message <= 36 \/ 0 <= 36 <= 6 * (24 / 3)).
Proof.
  apply (drawRows_panics_iff 80 (mkEditor 36 24 0 0));
    unfold int_min, int_max; simpl; lia.
Defined.

Lemma len_spaces (n : nat) : len (spaces n) = Z.of_nat n.
Proof.
  induction n as [|n IH]; [reflexivity|].
  change (spaces (S n)) with (" " +:+ spaces n).
  rewrite len_app, IH. change (len " ") with 1. lia.
Qed.

(** X11: on a viewport at least as wide as the message the banner row
    shows the marker, (width - 37) / 2 spaces and the message, which is
    38 + (width - 37) / 2 columns: within the width from width 38 on, and
    one column more than the width at width 37, where the test
    len(message) > width lets the row through uncut. *)
Theorem drawRow_banner_columns (fuel : nat) (ed : Editor) (s : string) :
  1 <= height ed <= int_max ->
  len message <= width ed <= int_max ->
  (Z.to_nat (width ed) <= fuel)%nat ->
  drawRow fuel ed (height ed / 3) s
  = Done (s +:+ ("~" +:+ spaces (Z.to_nat ((width ed - 37) / 2))
                 +:+ message)
          +:+ ESC +:+ "[K"
          +:+ (if height ed / 3 <? height ed - 1 then CR +:+ LF
               else EmptyString)) /\
  len ("~" +:+ spaces (Z.to_nat ((width ed - 37) / 2)) +:+ message)
  = 38 + (width ed - 37) / 2 /\
  (38 <= width ed ->
   len ("~" +:+ spaces (Z.to_nat ((width ed - 37) / 2)) +:+ message)
   <= width ed) /\
  (width ed = 37 ->
   len ("~" +:+ spaces (Z.to_nat ((width ed - 37) / 2)) +:+ message)
   = width ed + 1).
Proof.
  intros Hh Hw Hfuel.
  assert (Hlen : len message = 37) by reflexivity.
  rewrite Hlen in Hw.
  assert (Hp : 0 <= (width ed - 37) / 2) by (apply Z.div_pos; lia).
  assert (Hvis : len ("~" +:+ spaces (Z.to_nat ((width ed - 37) / 2))
                      +:+ message) = 38 + (width ed - 37) / 2).
  { rewrite !len_app, len_spaces, Hlen. change (len "~") with 1. lia. }
  split_and!.
  - rewrite drawRow_banner_wide by (rewrite ?Hlen; lia).
    unfold row_spec. rewrite Z.eqb_refl, Hlen.
    by rewrite !str_app_assoc.
  - exact Hvis.
  - intros H38. rewrite Hvis.
    assert ((width ed - 37) / 2 < width ed - 37); [|lia].
    apply Z.div_lt_upper_bound; lia.
  - intros E. rewrite Hvis, E. reflexivity.
Qed.

Lemma drawRow_banner_columns_witness :
  len ("~" +:+ spaces (Z.to_nat ((37 - 37) / 2)) +:+ message) = 37 + 1.
Proof.
  apply (proj2 (proj2 (proj2
           (drawRow_banner_columns 37 (mkEditor 37 24 0 0) EmptyString
              ltac:(unfold int_max; simpl; lia)
              ltac:(unfold int_max, len; simpl; lia)
              ltac:(simpl; lia))))).
  reflexivity.
Defined.

(* ===================================================================== *)
(** ** The loop of main *)
(* ===================================================================== *)

Lemma refresh_wide (fuel : nat) (ed : Editor) :
  viewport_ok ed -> in_bounds ed ->
  len message <= width ed ->
  (Z.to_nat (height ed) <= fuel)%nat ->
  (Z.to_nat (width ed) <= fuel)%nat ->
  refresh fuel ed = Done (frame_spec ed).
Proof.
  intros [Hw Hh] [Hx Hy] Hm Hfh Hfw.
  unfold refresh. rewrite drawRows_wide by lia.
  cbv [mbind res_bind]. unfold frame_spec, HIDE_CURSOR, HOME, SHOW_CURSOR.
  unfold int_max in *. unwrap.
  by rewrite !str_app_assoc.
Qed.

(** The first byte of the buffer after a read: the first byte delivered,
    or the byte already there when the read delivers none. *)
Lemma stdin_Read_first (inp b : list byte) :
  length b = 4%nat ->
  stdin_Read inp b !! 0%nat
  = match inp with
    | [] => b !! 0%nat
    | c :: _ => Some c
    end.
Proof.
  intros Hlen. unfold stdin_Read. rewrite Hlen.
  destruct inp as [|c inp]; [by rewrite drop_0|reflexivity].
Qed.

(** The loop on a viewport wide enough for the message, from a state
    within bounds and a buffer whose first byte is not the quit byte. *)
Lemma main_loop_session (fuel : nat) (inputs : list (list byte)) :
  forall (ed : Editor) (b : list byte),
    viewport_ok ed -> in_bounds ed ->
    height ed < int_max ->
    len message <= width ed ->
    (Z.to_nat (height ed + 1) <= fuel)%nat ->
    (Z.to_nat (width ed) <= fuel)%nat ->
    length b = 4%nat ->
    b !! 0%nat <> Some x11 ->
    exists ed' b' out run,
      main_loop fuel ed b inputs = Done (ed', b', out, run) /\
      in_bounds ed' /\ width ed' = width ed /\ height ed' = height ed /\
      length b' = 4%nat /\
      (run = false <-> Exists (fun inp => head inp = Some x11) inputs).
Proof.
  induction inputs as [|inp rest IH];
    intros ed b Hv Hb Hlt Hm Hfh Hfw Hlen Hb0; simpl main_loop;
    rewrite refresh_wide by (done || lia); cbv [mbind res_bind].
  - exists ed, b, (frame_spec ed), true. split_and!; try done.
    split; [done | by intros ?%Exists_nil].
  - destruct (processKeyPress_step fuel ed inp b Hlen Hlt Hfh)
      as (ed1 & run & E & Ew & Eh & Hrun & _ & Hin).
    rewrite E.
    assert (Hhead : head inp = Some x11 <->
                    stdin_Read inp b !! 0%nat = Some x11).
    { rewrite stdin_Read_first by done.
      destruct inp as [|c inp]; simpl; [|done].
      split; [done | intros E0; by destruct Hb0]. }
    destruct run.
    + assert (Hb1 : <[1%nat:=x00]> (stdin_Read inp b) !! 0%nat <> Some x11).
      { rewrite list_lookup_insert_ne by done.
        intros E0. apply Hrun in E0. discriminate E0. }
      destruct (IH ed1 (<[1%nat:=x00]> (stdin_Read inp b)))
        as (ed' & b' & out & run' & E' & Hin' & Ew' & Eh' & Hlen' & Hrun');
        try done.
      * destruct Hv. unfold viewport_ok. by rewrite Ew, Eh.
      * by apply Hin.
      * by rewrite Eh.
      * by rewrite Ew.
      * by rewrite Eh.
      * by rewrite Ew.
      * by rewrite length_insert, length_stdin_Read.
      * rewrite E'. do 4 eexists. split; [reflexivity|].
        split_and!; try done; try congruence.
        rewrite Hrun', Exists_cons. split; [by right|].
        intros [Hq|Hq]; [|done].
        apply Hhead, Hrun in Hq. discriminate Hq.
    + exists ed1, (<[1%nat:=x00]> (stdin_Read inp b)),
        (frame_spec ed +:+ CLEAR_SCREEN), false.
      split_and!; try done.
      * by apply Hin.
      * by rewrite length_insert, length_stdin_Read.
      * split; [intros _|done]. apply Exists_cons. left.
        by apply Hhead, Hrun.
Qed.

(** X12: on a terminal at least as wide as the message, whatever the
    reads deliver, main neither panics nor leaves the viewport: it
    returns with the cursor in bounds and the dimensions it started
    with, and its loop has ended exactly when some read began with the
    quit byte 0x11. *)
Theorem main_session (fuel : nat) (w h : Z) (inputs : list (list byte)) :
  len message <= w <= int_max ->
  1 <= h < int_max ->
  (Z.to_nat (h + 1) <= fuel)%nat ->
  (Z.to_nat w <= fuel)%nat ->
  exists ed b out run,
    main fuel w h inputs = Done (ed, b, out, run) /\
    0 <= cx ed < w /\ 0 <= cy ed < h /\
    width ed = w /\ height ed = h /\
    (run = false <-> Exists (fun inp => head inp = Some x11) inputs).
Proof.
  intros Hw Hh Hfh Hfw. unfold main.
  assert (Hm : len message = 37) by reflexivity.
  assert (Hv : viewport_ok (mkEditor w h 0 0))
    by (unfold viewport_ok; simpl; lia).
  assert (Hb : in_bounds (mkEditor w h 0 0))
    by (unfold in_bounds; simpl; lia).
  destruct (main_loop_session fuel inputs (mkEditor w h 0 0)
              [x00; x00; x00; x00] Hv Hb ltac:(simpl; lia)
              ltac:(simpl; lia) Hfh Hfw eq_refl ltac:(discriminate))
    as (ed & b & out & run & E & [Hx Hy] & Ew & Eh & _ & Hrun).
  simpl in Ew, Eh. rewrite Ew in Hx. rewrite Eh in Hy.
  exists ed, b, out, run. split_and!; done || lia.
Qed.

Lemma main_session_witness :
  exists ed b out run,
    main 80 80 24 [[x1b; "["; "B"]; ["a"]; [x11]; ["b"]]%byte
    = Done (ed, b, out, run) /\
    0 <= cx ed < 80 /\ 0 <= cy ed < 24 /\
    width ed = 80 /\ height ed = 24 /\
    (run = false <->
     Exists (fun inp => head inp = Some x11)
       [[x1b; "["; "B"]; ["a"]; [x11]; ["b"]]%byte).
Proof.
  apply (main_session 80 80 24 [[x1b; "["; "B"]; ["a"]; [x11]; ["b"]]%byte);
    unfold int_max, len; simpl; lia.
Defined.

Lemma processKeyPress_on_quit (fuel : nat) (ed : Editor)
    (t b : list byte) :
  length b = 4%nat ->
  processKeyPress fuel ed (x11 :: t) b
  = Done (ed, <[1%nat:=x00]> (stdin_Read (x11 :: t) b), CLEAR_SCREEN, false).
Proof.
  intros Hlen.
  pose proof (length_stdin_Read (x11 :: t) b) as Hl. rewrite Hlen in Hl.
  pose proof (stdin_Read_first (x11 :: t) b Hlen) as H0.
  destruct (stdin_Read (x11 :: t) b) as [|b0 [|b1 [|b2 [|b3 [|]]]]] eqn:Hrd;
    try discriminate Hl.
  injection H0 as ->.
  unfold processKeyPress, readKey. rewrite Hrd. reflexivity.
Qed.

(** X13: once a read begins with the quit byte the loop is over, and
    nothing after it is read: whatever reads are listed behind it, the
    editor is the one the loop had before the quit, and the output is what
    had been printed until then followed by <esc>[H<esc>[2J. *)
Theorem main_loop_quit_ends (fuel : nat) (pre : list (list byte)) :
  forall (ed ed' : Editor) (b b' t : list byte) (out : string)
         (post : list (list byte)),
    length b = 4%nat ->
    main_loop fuel ed b pre = Done (ed', b', out, true) ->
    main_loop fuel ed b (pre ++ (x11 :: t) :: post)
    = Done (ed', <[1%nat:=x00]> (stdin_Read (x11 :: t) b'),
            out +:+ ESC +:+ "[H" +:+ ESC +:+ "[2J", false).
Proof.
  induction pre as [|inp pre IH]; intros ed ed' b b' t out post Hlen;
    simpl app; simpl main_loop;
    destruct (refresh fuel ed) as [frame| |]; try done;
    cbv [mbind res_bind].
  - intros [= <- <- <-]. by rewrite processKeyPress_on_quit.
  - destruct (processKeyPress fuel ed inp b) as [[[[ed1 b1] o1] run]| |]
      eqn:E; try done.
    destruct run; [|done].
    destruct (main_loop fuel ed1 b1 pre) as [[[[ed2 b2] o2] run2]| |]
      eqn:E2; try done.
    intros [= <- <- <- ->].
    rewrite (IH ed1 ed2 b1 b2 t o2 post); [|
      rewrite (processKeyPress_buffer _ _ _ _ _ _ _ _ Hlen E);
      by rewrite length_insert, length_stdin_Read | exact E2].
    by rewrite !str_app_assoc.
Qed.

Lemma main_loop_quit_ends_witness :
  main_loop 80 (mkEditor 80 24 0 0) [x00; x00; x00; x00]
    ([[x1b; "["; "B"]%byte] ++ (x11 :: []) :: [["b"]%byte])
  = Done (mkEditor 80 24 0 1,
          <[1%nat:=x00]> (stdin_Read (x11 :: [])
                            [x1b; x00; "B"; x00]%byte),
          (frame_spec (mkEditor 80 24 0 0)
           +:+ frame_spec (mkEditor 80 24 0 1))
          +:+ ESC +:+ "[H" +:+ ESC +:+ "[2J", false).
Proof.
  apply (main_loop_quit_ends 80 [[x1b; "["; "B"]%byte]
           (mkEditor 80 24 0 0) (mkEditor 80 24 0 1)
           [x00; x00; x00; x00] [x1b; x00; "B"; x00]%byte []
           (frame_spec (mkEditor 80 24 0 0)
            +:+ frame_spec (mkEditor 80 24 0 1))
           [["b"]%byte]);
    [reflexivity | vm_compute; reflexivity].
Defined.

(* ===================================================================== *)
(** ** Panics of processKeyPress and of main *)
(* ===================================================================== *)

Lemma for_loop_no_panic {St : Type} (cond : Z -> St -> bool)
    (body : Z -> St -> res St) :
  (forall i s p, body i s <> Panic p) ->
  forall (fuel : nat) (i : Z) (s : St) (p : panic),
    for_loop fuel cond body i s <> Panic p.
Proof.
  intros Hbody. induction fuel as [|fuel IH]; intros i s p;
    rewrite for_loop_unfold; destruct (cond i s); try done.
  destruct (body i s) as [s'|q|] eqn:E; try done.
  - apply IH.
  - by destruct (Hbody i s q).
Qed.

Lemma readKey_long_buffer (inp b : list byte) :
  (4 <= length b)%nat ->
  exists ch, readKey inp b = Done (ch, stdin_Read inp b).
Proof.
  intros Hlen. unfold readKey, readKey_page.
  pose proof (length_stdin_Read inp b) as Hl.
  destruct (stdin_Read inp b) as [|e [|l [|c [|d tl]]]];
    simpl in Hl; try lia.
  change (index (e :: l :: c :: d :: tl) 0) with (Done e).
  change (index (e :: l :: c :: d :: tl) 1) with (Done l).
  change (index (e :: l :: c :: d :: tl) 2) with (Done c).
  change (index (e :: l :: c :: d :: tl) 3) with (Done d).
  cbv [mbind res_bind].
  repeat match goal with
         | |- context [if ?t then _ else _] => destruct t
         end; eauto.
Qed.

(** X14: processKeyPress panics, with an index out of range, on every
    buffer of fewer than two bytes, whatever is read; on a buffer of four
    bytes or more it panics on no input, in no state. *)
Theorem processKeyPress_panics_only_short (fuel : nat) (ed : Editor)
    (inp b : list byte) :
  ((length b < 2)%nat ->
   processKeyPress fuel ed inp b = Panic IndexOutOfRange) /\
  ((4 <= length b)%nat ->
   forall p, processKeyPress fuel ed inp b <> Panic p).
Proof.
  split; intros Hlen.
  - unfold processKeyPress, readKey.
    pose proof (length_stdin_Read inp b) as Hl.
    destruct (stdin_Read inp b) as [|b0 [|b1 tl]]; simpl in Hl; try lia;
      [reflexivity|].
    change (index [b0] 0) with (Done b0).
    change (index [b0] 1) with (@Panic byte IndexOutOfRange).
    cbv [mbind res_bind].
    destruct (u8 b0 =? 27); reflexivity.
  - intros p.
    destruct (readKey_long_buffer inp b Hlen) as [ch Hrk].
    unfold processKeyPress. rewrite Hrk. cbv [mbind res_bind].
    rewrite store_lt by (rewrite length_stdin_Read; lia).
    assert (Hpage : forall k q, page_loop fuel ed k <> Panic q).
    { intros k q. unfold page_loop. by apply for_loop_no_panic. }
    destruct (ch =? Z.land 31 (u8 "q")); [done|].
    destruct ((ch =? ARW_UP) || (ch =? ARW_DOWN) || (ch =? ARW_RIGHT)
              || (ch =? ARW_LEFT)); [done|].
    destruct (ch =? PG_UP).
    { destruct (page_loop fuel ed ARW_UP) eqn:E; try done.
      by destruct (Hpage ARW_UP p0). }
    destruct (ch =? PG_DOWN).
    { destruct (page_loop fuel ed ARW_DOWN) eqn:E; try done.
      by destruct (Hpage ARW_DOWN p0). }
    destruct (ch <? 32); [done|].
    destruct (ch =? 127); done.
Qed.

(** X15: on a terminal of height at least 1, narrower than the message,
    whose width is above 6 * (height / 3), main panics in its first
    refresh, before any read: whatever the input holds, none of it is
    consumed and the quit key is of no use. *)
Theorem main_narrow_panics (fuel : nat) (w h : Z)
    (inputs : list (list byte)) :
  1 <= h <= int_max ->
  0 <= w < len message ->
  6 * (h / 3) < w ->
  (Z.to_nat h <= fuel)%nat ->
  main fuel w h inputs = Panic SliceBoundsOutOfRange.
Proof.
  intros Hh Hw Hshort Hfuel. unfold main.
  assert (E : refresh fuel (mkEditor w h 0 0) = Panic SliceBoundsOutOfRange).
  { unfold refresh.
    rewrite drawRows_banner_split, drawRow_banner_outside; try done;
      try (simpl; lia).
    right. rewrite len_rows_above_banner; simpl; lia. }
  destruct inputs; simpl main_loop; by rewrite E.
Qed.

Lemma main_narrow_panics_witness :
  main 17 36 17 [[x11]] = Panic SliceBoundsOutOfRange.
Proof.
  apply (main_narrow_panics 17 36 17 [[x11]]).
  - unfold int_max; lia.
  - unfold len; simpl; lia.
  - reflexivity.
  - simpl; lia.
Defined.
